(** * A shallow embedding of the diff change classifier

    The development follows [analyze_commit_changes] of
    [repo_fix_summary_get_line_class_method.py]: the first counting pass
    over the lines of the diff, the second pass with the line cursors, the
    hunk lookahead and the class/method context, and the assembly of the
    result.  The outputs of the [git] commands are inputs of the model.

    Python values are modelled as follows.
    - [str]: [string]; a character is a code point below 256.
    - [int]: [Z].
    - [None]-or-value variables: [option].
    - [dict]: [gmap]; the per-file dictionary maps a key to a [value].
    - a raised exception: the [Raise] side of [result], see [exn]. *)

From Stdlib Require Import ZArith Ascii String List Lia Bool.
From stdpp Require Import base option gmap strings list.

Local Open Scope Z_scope.

(** ** Python string primitives *)

Module PyStr.

(** [s.startswith(p)] *)
Fixpoint startswith (s p : string) {struct p} : bool :=
  match p with
  | EmptyString => true
  | String b p' =>
      match s with
      | EmptyString => false
      | String a s' => if Ascii.eqb a b then startswith s' p' else false
      end
  end.

(** [sub in s] *)
Fixpoint contains (sub s : string) : bool :=
  startswith s sub ||
  match s with
  | EmptyString => false
  | String _ s' => contains sub s'
  end.

(** [s.split(sep)] for a separator that is not empty (every separator of
    the source is a literal).  The scan goes left to right; where [sep]
    starts, the current piece is closed and the separator is skipped
    ([skip] counts the characters of it still to pass).  The result is the
    first piece and the list of the pieces after it. *)
Fixpoint split_go (sep : string) (skip : nat) (s : string)
  : string * list string :=
  match s with
  | EmptyString => (EmptyString, [])
  | String c s' =>
      match skip with
      | S k => split_go sep k s'
      | O =>
          if startswith s sep
          then (EmptyString,
                let '(p, ps) := split_go sep (String.length sep - 1) s' in
                p :: ps)
          else let '(p, ps) := split_go sep 0 s' in (String c p, ps)
      end
  end.

Definition split (sep s : string) : list string :=
  let '(p, ps) := split_go sep 0 s in p :: ps.

(** [str.isspace] on one character with a code point below 256 *)
Definition isspace (c : ascii) : bool :=
  let n := nat_of_ascii c in
  ((9 <=? n) && (n <=? 13) || (28 <=? n) && (n <=? 32)
   || (n =? 133) || (n =? 160))%nat.

(** Removal of the leading and of the trailing characters that satisfy
    [sp]. *)
Fixpoint lstrip_by (sp : ascii -> bool) (s : string) : string :=
  match s with
  | EmptyString => EmptyString
  | String c s' => if sp c then lstrip_by sp s' else s
  end.

Fixpoint rstrip_by (sp : ascii -> bool) (s : string) : string :=
  match s with
  | EmptyString => EmptyString
  | String c s' =>
      match rstrip_by sp s' with
      | EmptyString => if sp c then EmptyString else String c EmptyString
      | r => String c r
      end
  end.

(** [s.strip()] *)
Definition strip (s : string) : string :=
  rstrip_by isspace (lstrip_by isspace s).

(** [s[1:]] *)
Definition drop1 (s : string) : string :=
  match s with
  | EmptyString => EmptyString
  | String _ s' => s'
  end.

Definition digit_val (c : ascii) : option Z :=
  let n := nat_of_ascii c in
  if ((48 <=? n) && (n <=? 57))%nat then Some (Z.of_nat n - 48) else None.

(** The digits of a base-10 literal after its sign: decimal digits with
    single underscores between them.  [prev] says whether the character
    before was a digit, [acc] is the value read so far. *)
Fixpoint int_digits (prev : bool) (acc : Z) (s : string) : option Z :=
  match s with
  | EmptyString => if prev then Some acc else None
  | String c s' =>
      match digit_val c with
      | Some d => int_digits true (10 * acc + d) s'
      | None =>
          if Ascii.eqb c "_" then
            if prev then int_digits false acc s' else None
          else None
      end
  end.

(** The white space that [int] accepts around a literal: unlike
    [str.isspace] it leaves out the code points 28 to 31. *)
Definition int_space (c : ascii) : bool :=
  let n := nat_of_ascii c in
  ((9 <=? n) && (n <=? 13) || (n =? 32) || (n =? 133) || (n =? 160))%nat.

(** The limit that [int] puts on the number of digits of a decimal
    literal ([sys.int_info.default_max_str_digits] of CPython 3.11, which
    the source does not change). *)
Definition max_str_digits : nat := 4300.

(** The number of digits of a literal: leading zeros count, underscores
    do not. *)
Fixpoint digit_count (s : string) : nat :=
  match s with
  | EmptyString => O
  | String c s' =>
      ((match digit_val c with Some _ => 1 | None => 0 end)
       + digit_count s')%nat
  end.

(** The literal after the white space and the sign: no value when it has
    more digits than the limit, or when it is not made of digits. *)
Definition int_literal (ds : string) : option Z :=
  if (max_str_digits <? digit_count ds)%nat then None
  else int_digits false 0 ds.

(** [int(s)]: [None] stands for the [ValueError] of a string that is not
    a base-10 integer literal, or that has more digits than the limit. *)
Definition int (s : string) : option Z :=
  match rstrip_by int_space (lstrip_by int_space s) with
  | String "+" ds => int_literal ds
  | String "-" ds => Z.opp <$> int_literal ds
  | ds => int_literal ds
  end.

End PyStr.

(** ** Values, exceptions and the per-file dictionaries *)

Inductive exn : Type :=
| KeyError (key : string)
| IndexError
| ValueError (literal : string)
| AttributeError
| TypeError.

(** A computation that returns a value or raises. *)
Inductive result (A : Type) : Type :=
| Ok (a : A)
| Raise (e : exn).
Arguments Ok {A} a.
Arguments Raise {A} e.

Global Instance result_bind : MBind result := fun A B f m =>
  match m with
  | Ok a => f a
  | Raise e => Raise e
  end.

Global Instance result_fmap : FMap result := fun A B f m =>
  match m with
  | Ok a => Ok (f a)
  | Raise e => Raise e
  end.

(** The dictionaries appended to the ["line_changes"] and the
    ["class_method_changes"] lists. *)
Inductive entry : Type :=
| change_info (type : string) (line_number : Z) (content : string)
    (class method : option string)
| class_method_change (class method : option string) (key : string)
    (line : Z) (type content : string).

Inductive value : Type :=
| VInt (n : Z)
| VList (l : list entry).

(** [lambda: {"additions": 0, "deletions": 0, "changes": 0}] *)
Definition default_stats : gmap string value :=
  {[ "additions" := VInt 0; "deletions" := VInt 0; "changes" := VInt 0 ]}.

(** [file_stats[k]] on the [defaultdict]: a missing key is inserted with
    the default before it is returned.  The pair is the dictionary after
    the access and the per-file dictionary found. *)
Definition getitem_default (fs : gmap (option string) (gmap string value))
    (k : option string)
  : gmap (option string) (gmap string value) * gmap string value :=
  match fs !! k with
  | Some d => (fs, d)
  | None => (<[k := default_stats]> fs, default_stats)
  end.

(** [file_stats[k][key] += 1] *)
Definition incr (key : string) (k : option string)
    (fs : gmap (option string) (gmap string value))
  : result (gmap (option string) (gmap string value)) :=
  let '(fs1, d) := getitem_default fs k in
  match d !! key with
  | None => Raise (KeyError key)
  | Some (VInt n) => Ok (<[k := <[key := VInt (n + 1)]> d]> fs1)
  | Some (VList _) => Raise TypeError
  end.

(** [file_stats[k][key].append(x)] *)
Definition append_to (key : string) (x : entry) (k : option string)
    (fs : gmap (option string) (gmap string value))
  : result (gmap (option string) (gmap string value)) :=
  let '(fs1, d) := getitem_default fs k in
  match d !! key with
  | None => Raise (KeyError key)
  | Some (VList l) => Ok (<[k := <[key := VList (l ++ [x])]> d]> fs1)
  | Some (VInt _) => Raise AttributeError
  end.

(** [l[n]] and [l[-1]] *)
Definition index (l : list string) (n : nat) : result string :=
  match l !! n with
  | Some x => Ok x
  | None => Raise IndexError
  end.

Definition index_last (l : list string) : result string :=
  match last l with
  | Some x => Ok x
  | None => Raise IndexError
  end.

(** [int(s)] as a computation: [ValueError s] is the [ValueError] that
    [int] raises on the argument [s]; its message quotes [s], or gives
    the number of digits when [s] exceeds the limit. *)
Definition to_int (s : string) : result Z :=
  match PyStr.int s with
  | Some n => Ok n
  | None => Raise (ValueError s)
  end.

(** Truth value of a variable that holds [None] or a string. *)
Definition truthy (o : option string) : bool :=
  match o with
  | Some s => negb (String.eqb s "")
  | None => false
  end.

(** [o or d] inside the format string of the key *)
Definition or_else (o : option string) (d : string) : string :=
  match o with
  | Some s => if String.eqb s "" then d else s
  | None => d
  end.

Definition nl : string := String "010"%char "".

(** ** The first pass: counting additions and deletions by file *)

(** [line.split(" b/")[-1]] *)
Definition file_path_of (line : string) : result string :=
  index_last (PyStr.split " b/" line).

Definition is_addition (line : string) : bool :=
  PyStr.startswith line "+" && negb (PyStr.startswith line "+++").

Definition is_deletion (line : string) : bool :=
  PyStr.startswith line "-" && negb (PyStr.startswith line "---").

Fixpoint count_pass (lines : list string)
    (fs : gmap (option string) (gmap string value))
    (current_file : option string)
  : result (gmap (option string) (gmap string value)) :=
  match lines with
  | [] => Ok fs
  | line :: rest =>
      if PyStr.startswith line "diff --git" then
        file_path ← file_path_of line;
        count_pass rest fs (Some file_path)
      else if is_addition line then
        fs1 ← incr "additions" current_file fs;
        fs2 ← incr "changes" current_file fs1;
        count_pass rest fs2 current_file
      else if is_deletion line then
        fs1 ← incr "deletions" current_file fs;
        fs2 ← incr "changes" current_file fs1;
        count_pass rest fs2 current_file
      else count_pass rest fs current_file
  end.

(** ** The second pass: cursors, lookahead and context *)

Record state : Type := State {
  file_stats : gmap (option string) (gmap string value);
  current_file : option string;
  current_class : option string;
  current_method : option string;
  old_line_num : option Z;
  new_line_num : option Z;
  i : nat
}.

(** [ctx_line.split("class ")[1].split("(")[0].split(":")[0].strip()] *)
Definition class_match_of (ctx_line : string) : result string :=
  a ← index (PyStr.split "class " ctx_line) 1;
  b ← index (PyStr.split "(" a) 0;
  c ← index (PyStr.split ":" b) 0;
  Ok (PyStr.strip c).

(** [line.split("def ")[1].split("(")[0].strip()] *)
Definition method_match_of (line : string) : result string :=
  a ← index (PyStr.split "def " line) 1;
  b ← index (PyStr.split "(" a) 0;
  Ok (PyStr.strip b).

Definition has_class (line : string) : bool :=
  PyStr.contains "class " line && PyStr.contains ":" line.

Definition has_def (line : string) : bool :=
  PyStr.contains "def " line && PyStr.contains ":" line.

(** The starting line numbers of a hunk header: [abs(int(...))] of the
    pre-image range and [int(...)] of the post-image range. *)
Definition hunk_starts (line : string) : result (Z * Z) :=
  line_info ← PyStr.strip <$> index (PyStr.split "@@" line) 1;
  let line_numbers := PyStr.split " " line_info in
  old_range ← index line_numbers 0;
  new_range ← index line_numbers 1;
  old_tok ← index (PyStr.split "," old_range) 0;
  old ← to_int old_tok;
  new_tok ← index (PyStr.split "," new_range) 0;
  new ← to_int new_tok;
  Ok (Z.abs old, new).

(** The [while context_index < i + 20 and context_index < len(lines)]
    loop; [fuel] bounds the number of iterations. *)
Fixpoint collect_context (fuel : nat) (lines : list string)
    (i context_index : nat) (context_lines : list string) : list string :=
  if ((context_index <? i + 20) && (context_index <? length lines))%nat then
    match fuel, lines !! context_index with
    | S fuel', Some context_line =>
        collect_context fuel' lines i (S context_index)
          (if negb (PyStr.startswith context_line "+")
              && negb (PyStr.startswith context_line "-")
           then context_lines ++ [context_line]
           else context_lines)
    | _, _ => context_lines
    end
  else context_lines.

(** The [for ctx_line in context_lines] loop over the class definitions *)
Fixpoint scan_context (context_lines : list string)
    (current_class : option string) : result (option string) :=
  match context_lines with
  | [] => Ok current_class
  | ctx_line :: rest =>
      if has_class ctx_line then
        class_match ← class_match_of ctx_line;
        scan_context rest (Some class_match)
      else scan_context rest current_class
  end.

Definition is_context (line : string) : bool :=
  negb (PyStr.startswith line "+") && negb (PyStr.startswith line "-")
  && negb (PyStr.startswith line "diff") && negb (PyStr.startswith line "@@").

(** The body of [if new_line_num is not None:] of an addition, and of
    [if old_line_num is not None:] of a deletion: [n] is the cursor. *)
Definition record_change (type : string) (n : Z) (line : string) (st : state)
  : result (gmap (option string) (gmap string value)) :=
  let info := change_info type n (PyStr.drop1 line)
                (current_class st) (current_method st) in
  fs ← append_to "line_changes" info (current_file st) (file_stats st);
  if truthy (current_class st) || truthy (current_method st) then
    let class_method_key :=
      or_else (current_class st) "Unknown" +:+ "::" +:+
      or_else (current_method st) "global" in
    append_to "class_method_changes"
      (class_method_change (current_class st) (current_method st)
         class_method_key n type (PyStr.drop1 line))
      (current_file st) fs
  else Ok fs.

(** One iteration of [while i < len(lines)], with its [i += 1]. *)
Definition body (lines : list string) (st : state) : result state :=
  line ← index lines (i st);
  if PyStr.startswith line "diff --git" then
    file_path ← file_path_of line;
    Ok (State (file_stats st) (Some file_path) None None
          (old_line_num st) (new_line_num st) (S (i st)))
  else if PyStr.startswith line "@@" then
    '(old, new) ← hunk_starts line;
    let context_lines := collect_context 20 lines (i st) (i st + 1) [] in
    cls ← scan_context context_lines None;
    Ok (State (file_stats st) (current_file st) cls None
          (Some old) (Some new) (S (i st)))
  else if is_addition line then
    fs1 ← incr "additions" (current_file st) (file_stats st);
    fs2 ← incr "changes" (current_file st) fs1;
    match new_line_num st with
    | Some n =>
        fs3 ← record_change "addition" n line
                (State fs2 (current_file st) (current_class st)
                   (current_method st) (old_line_num st) (new_line_num st)
                   (i st));
        Ok (State fs3 (current_file st) (current_class st)
              (current_method st) (old_line_num st) (Some (n + 1))
              (S (i st)))
    | None =>
        Ok (State fs2 (current_file st) (current_class st)
              (current_method st) (old_line_num st) None (S (i st)))
    end
  else if is_deletion line then
    fs1 ← incr "deletions" (current_file st) (file_stats st);
    fs2 ← incr "changes" (current_file st) fs1;
    match old_line_num st with
    | Some n =>
        fs3 ← record_change "deletion" n line
                (State fs2 (current_file st) (current_class st)
                   (current_method st) (old_line_num st) (new_line_num st)
                   (i st));
        Ok (State fs3 (current_file st) (current_class st)
              (current_method st) (Some (n + 1)) (new_line_num st)
              (S (i st)))
    | None =>
        Ok (State fs2 (current_file st) (current_class st)
              (current_method st) None (new_line_num st) (S (i st)))
    end
  else if is_context line then
    let old := (fun n => n + 1) <$> old_line_num st in
    let new := (fun n => n + 1) <$> new_line_num st in
    cls ← (if has_class line
           then Some <$> class_match_of line
           else Ok (current_class st));
    mth ← (if has_def line
           then Some <$> method_match_of line
           else Ok (current_method st));
    Ok (State (file_stats st) (current_file st) cls mth old new (S (i st)))
  else
    Ok (State (file_stats st) (current_file st) (current_class st)
          (current_method st) (old_line_num st) (new_line_num st)
          (S (i st))).

(** [while i < len(lines): ...]; [fuel] bounds the number of iterations
    and [scan_enough_fuel] shows that [length lines] of it is enough. *)
Fixpoint scan (fuel : nat) (lines : list string) (st : state)
  : result state :=
  if (i st <? length lines)%nat then
    match fuel with
    | S fuel' => st' ← body lines st; scan fuel' lines st'
    | O => Ok st
    end
  else Ok st.

(** ** The result *)

Record analysis : Type := Analysis {
  files : gmap (option string) (gmap string value);
  files_list : list string;
  diff_summary : string;
  full_diff : string
}.

(** The state in which the second pass starts. *)
Definition initial (fs : gmap (option string) (gmap string value)) : state :=
  State fs None None None None None 0.

(** The two passes over the lines of the diff.  The totals, the count of
    file extensions and the commit date that the source computes between
    the passes do not reach the result; the first two cannot raise and
    the third is the output of one more [git] command.  They are left
    out. *)
Definition classify (lines : list string)
  : result (gmap (option string) (gmap string value)) :=
  fs ← count_pass lines ∅ None;
  st ← scan (length lines) lines (initial fs);
  Ok (file_stats st).

(** [analyze_commit_changes], from the standard outputs of [git diff-tree
    --name-only], [git diff --stat] and [git diff].  [Raise e] is the
    dictionary [{"error": str(e)}] that the handler of [Exception] returns
    in place of the result. *)
Definition analyze_commit_changes (names_stdout stat_stdout diff_stdout : string)
  : result analysis :=
  let files_changed := PyStr.split nl (PyStr.strip names_stdout) in
  let stats_summary := PyStr.strip stat_stdout in
  let diff_output := diff_stdout in
  fs ← classify (PyStr.split nl diff_output);
  Ok (Analysis fs files_changed stats_summary diff_output).

(** ** Notions used in the statements *)

(** The diff of the worked scenario, line by line. *)
Definition scenario : list string :=
  ["diff --git a/foo.py b/foo.py"; "@@ -1,3 +1,4 @@"; " class Foo:";
   "+    def bar(self): pass"; " "; "-    pass"].

(** The number of entries of one type in the ["line_changes"] list of a
    per-file dictionary; a dictionary without the key records none. *)
Definition is_change_of (type : string) (e : entry) : bool :=
  match e with
  | change_info t _ _ _ _ => String.eqb t type
  | class_method_change _ _ _ _ _ _ => false
  end.

Definition recorded (type : string) (d : gmap string value) : nat :=
  match d !! "line_changes" with
  | Some (VList l) => length (filter (fun e => is_change_of type e = true) l)
  | _ => O
  end.

(** The counters of a per-file dictionary are integers that add up. *)
Definition counters_ok (d : gmap string value) : Prop :=
  exists a b c : Z,
    d !! "additions" = Some (VInt a) /\ d !! "deletions" = Some (VInt b) /\
    d !! "changes" = Some (VInt c) /\ a + b = c.

(** The invariant of the per-file dictionaries: the three counters add
    up, and no dictionary has a ["line_changes"] key. *)
Definition fs_ok (fs : gmap (option string) (gmap string value)) : Prop :=
  forall f d, fs !! f = Some d ->
    counters_ok d /\ d !! "line_changes" = None.

(** The lines that the lookahead of the hunk header at index [i] keeps:
    of the 19 lines after the header, those that start with neither [+]
    nor [-]. *)
Definition pure_context (l : string) : bool :=
  negb (PyStr.startswith l "+") && negb (PyStr.startswith l "-").

Definition context_window (lines : list string) (i : nat) : list string :=
  filter (fun l => pure_context l = true) (take 19 (drop (S i) lines)).

(** The class name that a class-definition line yields. *)
Definition class_name (l : string) : string :=
  match class_match_of l with
  | Ok c => c
  | Raise _ => ""
  end.

Definition class_names (window : list string) : list string :=
  class_name <$> filter (fun l => has_class l = true) window.

(** The tie-break as the specification words it, for comparison with
    [scan_context]: the first class definition of the window. *)
Definition spec_first_class_match (window : list string) : option string :=
  head (class_names window).

(** The tie-break of [scan_context]: the last class definition. *)
Definition last_class_match (window : list string) : option string :=
  last (class_names window).









(** No character of [s] satisfies [bad]. *)
Fixpoint none_of (bad : ascii -> bool) (s : string) : bool :=
  match s with
  | EmptyString => true
  | String c s' => negb (bad c) && none_of bad s'
  end.

(** ** Notions for hunk headers of any content *)


(** A word: a text without white space, [@] or comma, as the parts of a
    range of a hunk header are. *)
Definition not_word_char (c : ascii) : bool :=
  PyStr.isspace c || Ascii.eqb "@" c || Ascii.eqb "," c.

Definition is_word (s : string) : bool := none_of not_word_char s.



(** ** The count-only variant and the notions for its counts *)

(** [analyze_commit_changes] of [repo_vul_files.py]: the first pass alone,
    with the same result fields. *)
Definition analyze_commit_changes_counts
    (names_stdout stat_stdout diff_stdout : string) : result analysis :=
  let files_changed := PyStr.split nl (PyStr.strip names_stdout) in
  let stats_summary := PyStr.strip stat_stdout in
  let diff_output := diff_stdout in
  fs ← count_pass (PyStr.split nl diff_output) ∅ None;
  Ok (Analysis fs files_changed stats_summary diff_output).

(** The path that a file header carries. *)
Definition path_of (line : string) : string :=
  match file_path_of line with
  | Ok f => f
  | Raise _ => ""
  end.

Definition header_path (line : string) : option string :=
  if PyStr.startswith line "diff --git" then Some (path_of line) else None.

(** The file to which a line belongs: the path of the last file header
    among the lines before it, if there is one. *)
Definition owner (before : list string) : option string :=
  last (omap header_path before).

(** The number of lines of [rest] that satisfy [P] and belong to [f],
    when [rest] comes after the lines [before]. *)
Fixpoint tally_from (P : string -> bool) (f : option string)
    (before rest : list string) : nat :=
  match rest with
  | [] => O
  | l :: rest' =>
      ((if P l && bool_decide (owner before = f) then 1 else 0)
       + tally_from P f (before ++ [l]) rest')%nat
  end.

Definition tally (P : string -> bool) (f : option string)
    (lines : list string) : nat :=
  tally_from P f [] lines.

(** A per-file dictionary with exactly the three counters. *)
Definition counters (a b c : Z) : gmap string value :=
  {[ "additions" := VInt a; "deletions" := VInt b; "changes" := VInt c ]}.

(** The entry of a file with [a] additions and [b] deletions counted:
    none before the first counted line. *)
Definition entry_of (a b : nat) : option (gmap string value) :=
  if (a + b =? 0)%nat then None
  else Some (counters (Z.of_nat a) (Z.of_nat b) (Z.of_nat (a + b))).

(** [fs] holds exactly the counts [A] and [B] of every file. *)
Definition exact (A B : option string -> nat)
    (fs : gmap (option string) (gmap string value)) : Prop :=
  forall f, fs !! f = entry_of (A f) (B f).

(** The method name that a definition line yields. *)
Definition method_name (l : string) : string :=
  match method_match_of l with
  | Ok m => m
  | Raise _ => ""
  end.

(** A line that is met without an exception whatever the state: every
    hunk header parses, and no addition or deletion comes after a hunk
    header. *)
Definition is_counted (line : string) : bool :=
  is_addition line || is_deletion line.

Definition hunks_parse (lines : list string) : Prop :=
  forall k h, lines !! k = Some h -> PyStr.startswith h "@@" = true ->
    exists p, hunk_starts h = Ok p.

Definition no_change_after_hunk (lines : list string) : Prop :=
  forall j k h l, (j < k)%nat ->
    lines !! j = Some h -> PyStr.startswith h "@@" = true ->
    lines !! k = Some l -> is_counted l = false.

(** ** The callers: repository names, file names, commit fields *)

(** [l[-2:]] *)
Definition last_two (l : list string) : list string :=
  drop (length l - 2) l.

(** [repo_owner, repo_name = url.split("/")[-2:]] of the main loops;
    [None] is the [ValueError] of an unpacking that does not find two
    values. *)
Definition owner_and_name (url : string) : option (string * string) :=
  match last_two (PyStr.split "/" url) with
  | [repo_owner; repo_name] => Some (repo_owner, repo_name)
  | _ => None
  end.

(** [file_path.split("/")[-1].split('.')[0] + "_vul.py"], the name under
    which [postprocessing] of [repo_vul_files.py] copies a file. *)
Definition vul_file_name (file_path : string) : result string :=
  base ← index_last (PyStr.split "/" file_path);
  stem ← index (PyStr.split "." base) 0;
  Ok (stem +:+ "_vul.py").

(** [author_name, author_email, author_time, commit_message =
    stdout.strip().split("|")] of the deprecated analysis; [None] is the
    [ValueError] of an unpacking that does not find four values. *)
Definition commit_fields (info_stdout : string)
  : option (string * string * string * string) :=
  match PyStr.split "|" (PyStr.strip info_stdout) with
  | [author_name; author_email; author_time; commit_message] =>
      Some (author_name, author_email, author_time, commit_message)
  | _ => None
  end.

(** The number of occurrences of a character. *)
Fixpoint count_char (x : ascii) (s : string) : nat :=
  match s with
  | EmptyString => O
  | String c s' => ((if Ascii.eqb c x then 1 else 0) + count_char x s')%nat
  end.

(** Closes a goal that is a conjunction, or one of three alternatives. *)
Ltac one_case :=
  solve [ repeat split
        | left; repeat split
        | right; left; repeat split
        | right; right; repeat split ].

(** * Properties *)

(** ** Strings *)

Section Strings.

Local Arguments String.append : simpl nomatch.

Lemma app_assoc_s (a b c : string) : (a +:+ b) +:+ c = a +:+ (b +:+ c).
Proof. induction a as [|x a IH]; simpl; [reflexivity | now rewrite IH]. Qed.

Lemma app_nil_r_s (a : string) : a +:+ "" = a.
Proof. induction a as [|x a IH]; simpl; [reflexivity | now rewrite IH]. Qed.

Lemma length_app_s (a b : string) :
  String.length (a +:+ b) = (String.length a + String.length b)%nat.
Proof. induction a as [|x a IH]; simpl; [reflexivity | now rewrite IH]. Qed.

(** Two decompositions of one string: the longer left part extends the
    shorter. *)
Lemma app_eq_app_le (a b c d : string) :
  a +:+ b = c +:+ d -> (String.length a <= String.length c)%nat ->
  exists u, c = a +:+ u /\ b = u +:+ d.
Proof.
  revert c. induction a as [|x a IH]; intros c H Hle; simpl in *.
  - exists c. split; [reflexivity | exact H].
  - destruct c as [|y c]; simpl in *; [lia |].
    injection H as -> H. destruct (IH c H ltac:(lia)) as (u & -> & ->).
    exists u. split; reflexivity.
Qed.

Lemma startswith_app (p s : string) : PyStr.startswith (p +:+ s) p = true.
Proof.
  induction p as [|x p IH]; simpl; [reflexivity |].
  now rewrite Ascii.eqb_refl.
Qed.

Lemma startswith_inv (s p : string) :
  PyStr.startswith s p = true -> exists r, s = p +:+ r.
Proof.
  revert s. induction p as [|x p IH]; intros s H; simpl in *.
  - exists s. reflexivity.
  - destruct s as [|y s]; [discriminate |].
    destruct (Ascii.eqb_spec y x) as [-> | _]; [| discriminate].
    destruct (IH s H) as [r ->]. exists r. reflexivity.
Qed.

Lemma startswith_prefix (s p q : string) :
  PyStr.startswith s (p +:+ q) = true -> PyStr.startswith s p = true.
Proof.
  intros H. apply startswith_inv in H as [r ->].
  rewrite app_assoc_s. apply startswith_app.
Qed.

Lemma startswith_first (s : string) (x : ascii) (p : string) :
  PyStr.startswith s (String x p) = true -> exists r, s = String x r.
Proof. intros H. apply startswith_inv in H as [r ->]. eauto. Qed.

Lemma contains_app (sep a b : string) :
  PyStr.contains sep (a +:+ sep +:+ b) = true.
Proof.
  induction a as [|x a IH]; simpl.
  - destruct (sep +:+ b) eqn:E; simpl; rewrite <- ?E, startswith_app; reflexivity.
  - rewrite IH. apply orb_true_r.
Qed.

(** *** [split] *)

Lemma split_go_skip (sep t s : string) :
  PyStr.split_go sep (String.length t) (t +:+ s) = PyStr.split_go sep 0 s.
Proof.
  induction t as [|x t IH]; simpl; [reflexivity | exact IH].
Qed.

(** The two equations of the leftmost scan. *)
Lemma split_sep (sep r : string) :
  sep <> "" -> PyStr.split sep (sep +:+ r) = "" :: PyStr.split sep r.
Proof.
  intros Hne. destruct sep as [|x sep]; [congruence |].
  unfold PyStr.split. simpl.
  rewrite Ascii.eqb_refl, startswith_app, Nat.sub_0_r, split_go_skip.
  reflexivity.
Qed.

Lemma split_cons (sep : string) (c : ascii) (s : string) :
  PyStr.startswith (String c s) sep = false ->
  PyStr.split sep (String c s) =
    match PyStr.split sep s with
    | p :: ps => String c p :: ps
    | [] => []
    end.
Proof.
  intros H. unfold PyStr.split.
  change (PyStr.split_go sep 0 (String c s))
    with (if PyStr.startswith (String c s) sep
          then (EmptyString,
                let '(p, ps) := PyStr.split_go sep (String.length sep - 1) s in
                p :: ps)
          else let '(p, ps) := PyStr.split_go sep 0 s in (String c p, ps)).
  rewrite H. destruct (PyStr.split_go sep 0 s). reflexivity.
Qed.

Lemma split_nil (sep : string) : PyStr.split sep "" = [""].
Proof. reflexivity. Qed.

Lemma split_not_nil (sep s : string) : PyStr.split sep s <> [].
Proof. unfold PyStr.split. destruct (PyStr.split_go sep 0 s). discriminate. Qed.

Lemma startswith_none_of (x : ascii) (sep pre s : string) :
  none_of (Ascii.eqb x) pre = true -> pre <> "" ->
  PyStr.startswith (pre +:+ s) (String x sep) = false.
Proof.
  destruct pre as [|y pre]; [congruence |]. simpl. intros H _.
  apply andb_true_iff in H as [H _]. rewrite Ascii.eqb_sym.
  destruct (Ascii.eqb x y); [discriminate | reflexivity].
Qed.

(** A piece in front of the first separator, recognised by the absence of
    the first character of the separator. *)
Lemma split_none_of_app (x : ascii) (sep pre r : string) :
  none_of (Ascii.eqb x) pre = true ->
  PyStr.split (String x sep) (pre +:+ String x sep +:+ r) =
    pre :: PyStr.split (String x sep) r.
Proof.
  induction pre as [|y pre IH]; intros H.
  - change ("" +:+ String x sep +:+ r) with (String x sep +:+ r).
    apply split_sep. discriminate.
  - change (String y pre +:+ String x sep +:+ r)
      with (String y (pre +:+ String x sep +:+ r)).
    rewrite split_cons.
    + simpl in H. apply andb_true_iff in H as [_ H]. now rewrite IH.
    + change (String y (pre +:+ String x sep +:+ r))
        with (String y pre +:+ String x sep +:+ r).
      apply startswith_none_of; [exact H | discriminate].
Qed.

Lemma split_none_of (x : ascii) (sep s : string) :
  none_of (Ascii.eqb x) s = true -> PyStr.split (String x sep) s = [s].
Proof.
  induction s as [|y s IH]; intros H; [reflexivity |].
  rewrite split_cons.
  - simpl in H. apply andb_true_iff in H as [_ H]. now rewrite IH.
  - rewrite <- (app_nil_r_s (String y s)).
    apply startswith_none_of; [exact H | discriminate].
Qed.

(** Where the separator occurs, the split has a second piece. *)
Lemma split_contains (sep s : string) :
  sep <> "" -> PyStr.contains sep s = true ->
  exists p q ps, PyStr.split sep s = p :: q :: ps.
Proof.
  intros Hne. induction s as [|x s IH]; simpl; intros H.
  - rewrite orb_false_r in H. destruct sep; [congruence | discriminate].
  - destruct (PyStr.startswith (String x s) sep) eqn:E.
    + apply startswith_inv in E as [r E]. rewrite E, split_sep by exact Hne.
      pose proof (split_not_nil sep r).
      destruct (PyStr.split sep r) as [|q ps]; [congruence |]. eauto.
    + rewrite split_cons by exact E.
      simpl in H.
      destruct (IH H) as (p & q & ps & ->). eauto.
Qed.

(** The last piece: the whole string when the separator does not occur,
    otherwise what follows an occurrence after which it occurs no more. *)
Lemma split_last (sep s : string) :
  sep <> "" ->
  exists f, last (PyStr.split sep s) = Some f /\
    PyStr.contains sep f = false /\
    ((PyStr.split sep s = [s] /\ f = s) \/
     exists pre, s = pre +:+ sep +:+ f).
Proof.
  intros Hne.
  induction s as [s IH] using (induction_ltof1 _ String.length).
  unfold ltof in IH. destruct s as [|x s].
  - exists "". rewrite split_nil. simpl. split; [reflexivity |].
    split; [| left; split; reflexivity].
    rewrite orb_false_r. destruct sep; [congruence | reflexivity].
  - destruct (PyStr.startswith (String x s) sep) eqn:E.
    + apply startswith_inv in E as [r E]. rewrite E, split_sep by exact Hne.
      destruct (IH r) as (f & Hl & Hc & Hf).
      { rewrite E, length_app_s. destruct sep; [congruence | simpl; lia]. }
      exists f. split; [| split; [exact Hc |]].
      * pose proof (split_not_nil sep r).
        destruct (PyStr.split sep r); [congruence | exact Hl].
      * right. destruct Hf as [[_ ->] | [pre ->]].
        -- exists "". reflexivity.
        -- exists (sep +:+ pre). now rewrite app_assoc_s.
    + rewrite split_cons by exact E.
      destruct (IH s) as (f & Hl & Hc & Hf); [simpl; lia |].
      destruct Hf as [[Hs ->] | [pre ->]].
      * exists (String x s). rewrite Hs. simpl. split; [reflexivity |].
        split; [| left; split; reflexivity].
        simpl. rewrite E. exact Hc.
      * exists f. split; [| split; [exact Hc | right; exists (String x pre); reflexivity]].
        destruct (split_contains sep (pre +:+ sep +:+ f) Hne
                    (contains_app _ _ _)) as (p & q & ps & Hs).
        rewrite Hs in *. exact Hl.
Qed.

(** *** [strip] *)

Lemma none_of_app (bad : ascii -> bool) (a b : string) :
  none_of bad (a +:+ b) = none_of bad a && none_of bad b.
Proof.
  induction a as [|x a IH]; simpl; [reflexivity |].
  now rewrite IH, andb_assoc.
Qed.

Lemma rstrip_by_none (sp : ascii -> bool) (s : string) :
  none_of sp s = true -> PyStr.rstrip_by sp s = s.
Proof.
  induction s as [|x s IH]; simpl; [reflexivity |]. intros H.
  apply andb_true_iff in H as [Hx H]. rewrite (IH H).
  destruct s; [| reflexivity].
  destruct (sp x); [discriminate | reflexivity].
Qed.


Lemma rstrip_by_drop (sp : ascii -> bool) (s : string) (c : ascii) :
  sp c = true ->
  PyStr.rstrip_by sp (s +:+ String c "") = PyStr.rstrip_by sp s.
Proof.
  intros H. induction s as [|x s IH]; simpl.
  - now rewrite H.
  - now rewrite IH.
Qed.

(** *** Digits and [int] *)









End Strings.

(** ** Hunk headers *)

Section HunkHeaders.

Local Arguments String.append : simpl nomatch.

Lemma none_of_weaken (bad bad' : ascii -> bool) (s : string) :
  (forall c, bad' c = true -> bad c = true) ->
  none_of bad s = true -> none_of bad' s = true.
Proof.
  intros Hb. induction s as [|c s IH]; cbn [none_of]; [reflexivity |].
  intros H. apply andb_true_iff in H as [Hc H]. rewrite (IH H), andb_true_r.
  apply negb_true_iff in Hc. apply negb_true_iff.
  destruct (bad' c) eqn:E; [| reflexivity]. rewrite (Hb c E) in Hc.
  discriminate.
Qed.


Lemma word_no_space (s : string) :
  is_word s = true -> none_of PyStr.isspace s = true.
Proof.
  apply none_of_weaken. intros c H. unfold not_word_char. now rewrite H.
Qed.


Lemma word_no_blank (s : string) :
  is_word s = true -> none_of (Ascii.eqb " ") s = true.
Proof.
  apply none_of_weaken. intros c H. apply Ascii.eqb_eq in H as <-.
  reflexivity.
Qed.

Lemma word_no_at (s : string) :
  is_word s = true -> none_of (Ascii.eqb "@") s = true.
Proof.
  apply none_of_weaken. intros c H. unfold not_word_char.
  rewrite H. now rewrite orb_true_r.
Qed.











Lemma index_raise (l : list string) (n : nat) (e : exn) :
  index l n = Raise e -> e = IndexError.
Proof. unfold index. destruct (l !! n); [discriminate | now intros [= <-]]. Qed.

Lemma to_int_raise (tok : string) (e : exn) :
  to_int tok = Raise e -> e = ValueError tok /\ PyStr.int tok = None.
Proof.
  unfold to_int. destruct (PyStr.int tok); [discriminate |].
  now intros [= <-].
Qed.

(** The exceptions of a hunk header. *)
Lemma hunk_starts_raise (line : string) (e : exn) :
  hunk_starts line = Raise e ->
  e = IndexError \/ exists tok, e = ValueError tok /\ PyStr.int tok = None.
Proof.
  unfold hunk_starts. intros H.
  destruct (index (PyStr.split "@@" line) 1) as [x|e0] eqn:E0;
    cbn [fmap result_fmap mbind result_bind] in H;
    [| injection H as <-; left; exact (index_raise _ _ _ E0)].
  repeat match type of H with
  | mbind _ ?m = _ =>
      let E := fresh "E" in
      destruct m eqn:E; cbn [mbind result_bind] in H;
        [| injection H as <-;
           first [ left; exact (index_raise _ _ _ E)
                 | right; eexists; exact (to_int_raise _ _ E) ] ]
  end.
  discriminate.
Qed.

End HunkHeaders.

(** ** One iteration of the second pass *)

Section Body.

Lemma index_split_0 (sep s : string) :
  exists p, index (PyStr.split sep s) 0 = Ok p.
Proof.
  pose proof (split_not_nil sep s).
  destruct (PyStr.split sep s) as [|p ps]; [congruence |]. now exists p.
Qed.

Lemma index_split_1 (sep s : string) :
  sep <> "" -> PyStr.contains sep s = true ->
  exists q, index (PyStr.split sep s) 1 = Ok q.
Proof.
  intros Hne H. destruct (split_contains sep s Hne H) as (p & q & ps & ->).
  now exists q.
Qed.

Lemma file_path_of_total (line : string) : exists f, file_path_of line = Ok f.
Proof.
  destruct (split_last " b/" line) as (f & Hl & _); [discriminate |].
  exists f. unfold file_path_of, index_last. now rewrite Hl.
Qed.

(** A line with a class definition always yields a name. *)
Lemma class_match_of_total (l : string) :
  has_class l = true -> exists c, class_match_of l = Ok c.
Proof.
  intros H. apply andb_true_iff in H as [H _]. unfold class_match_of.
  destruct (index_split_1 "class " l) as [a ->]; [discriminate | exact H |].
  cbn [mbind result_bind].
  destruct (index_split_0 "(" a) as [b ->]. cbn [mbind result_bind].
  destruct (index_split_0 ":" b) as [c ->]. cbn [mbind result_bind].
  eauto.
Qed.

Lemma method_match_of_total (l : string) :
  has_def l = true -> exists m, method_match_of l = Ok m.
Proof.
  intros H. apply andb_true_iff in H as [H _]. unfold method_match_of.
  destruct (index_split_1 "def " l) as [a ->]; [discriminate | exact H |].
  cbn [mbind result_bind].
  destruct (index_split_0 "(" a) as [b ->]. cbn [mbind result_bind].
  eauto.
Qed.

Lemma class_match_of_name (l : string) :
  has_class l = true -> class_match_of l = Ok (class_name l).
Proof.
  intros H. destruct (class_match_of_total l H) as [c Hc].
  unfold class_name. now rewrite Hc.
Qed.

(** The lookahead loop, in closed form: the lines kept are the pure
    context lines among the at most [i + 20 - context_index] lines from
    [context_index] on, and 20 iterations are never exceeded. *)
Lemma collect_context_take (fuel : nat) (lines : list string)
    (i k : nat) (acc : list string) :
  collect_context fuel lines i k acc =
    acc ++ filter (fun l => pure_context l = true)
             (take (fuel `min` (i + 20 - k)) (drop k lines)).
Proof.
  revert k acc. induction fuel as [|fuel IH]; intros k acc.
  - simpl. rewrite app_nil_r. now destruct (_ && _).
  - cbn [collect_context].
    destruct (Nat.ltb_spec k (i + 20)) as [H1 | H1];
      destruct (Nat.ltb_spec k (length lines)) as [H2 | H2]; cbn [andb].
    + destruct (lookup_lt_is_Some_2 lines k H2) as [l Hl]. rewrite Hl.
      rewrite IH, (drop_S _ _ _ Hl).
      replace (S fuel `min` (i + 20 - k))%nat
        with (S (fuel `min` (i + 20 - S k))) by lia.
      cbn [take]. rewrite filter_cons. fold (pure_context l).
      destruct (pure_context l); simpl.
      * now rewrite <- app_assoc.
      * reflexivity.
    + rewrite drop_ge by lia. rewrite take_nil. now rewrite app_nil_r.
    + replace (i + 20 - k)%nat with O by lia.
      rewrite Nat.min_0_r. now rewrite app_nil_r.
    + rewrite drop_ge by lia. rewrite take_nil. now rewrite app_nil_r.
Qed.

Lemma collect_context_window (lines : list string) (i : nat) :
  collect_context 20 lines i (i + 1) [] = context_window lines i.
Proof.
  rewrite collect_context_take. unfold context_window.
  replace (20 `min` (i + 20 - (i + 1)))%nat with 19%nat by lia.
  now replace (i + 1)%nat with (S i) by lia.
Qed.

(** The loop over the kept lines never raises, and the class definition
    seen last wins. *)
Lemma scan_context_last (window : list string) (c : option string) :
  scan_context window c =
    Ok (match last_class_match window with
        | Some x => Some x
        | None => c
        end).
Proof.
  unfold last_class_match, class_names.
  revert c. induction window as [|l w IH]; intros c; [reflexivity |].
  cbn [scan_context]. rewrite filter_cons.
  destruct (has_class l) eqn:E.
  - rewrite (class_match_of_name l E). cbn [mbind result_bind].
    rewrite IH. rewrite decide_True by reflexivity.
    rewrite fmap_cons, last_cons. now destruct (last _).
  - rewrite decide_False by discriminate. apply IH.
Qed.

Lemma hunk_not_file (line : string) :
  PyStr.startswith line "@@" = true ->
  PyStr.startswith line "diff --git" = false.
Proof. intros H. apply startswith_first in H as [r ->]. reflexivity. Qed.

Lemma body_file_header (lines : list string) (st : state) (line : string) :
  lines !! i st = Some line ->
  PyStr.startswith line "diff --git" = true ->
  exists f, file_path_of line = Ok f /\
    body lines st =
      Ok (State (file_stats st) (Some f) None None
            (old_line_num st) (new_line_num st) (S (i st))).
Proof.
  intros Hl Hf. destruct (file_path_of_total line) as [f Hp].
  exists f. split; [exact Hp |].
  unfold body, index. rewrite Hl. cbn [mbind result_bind].
  now rewrite Hf, Hp.
Qed.

Lemma body_hunk_header (lines : list string) (st : state) (line : string) :
  lines !! i st = Some line ->
  PyStr.startswith line "@@" = true ->
  body lines st =
    '(old, new) ← hunk_starts line;
    Ok (State (file_stats st) (current_file st)
          (last_class_match (context_window lines (i st))) None
          (Some old) (Some new) (S (i st))).
Proof.
  intros Hl Hh. unfold body, index. rewrite Hl. cbn [mbind result_bind].
  rewrite (hunk_not_file line Hh), Hh.
  destruct (hunk_starts line) as [[old new]|e]; cbn [mbind result_bind];
    [| reflexivity].
  rewrite collect_context_window, scan_context_last.
  cbn [mbind result_bind]. now destruct (last_class_match _).
Qed.

End Body.

(** ** The counters *)

Section Counters.

Implicit Types fs : gmap (option string) (gmap string value).
Implicit Types d : gmap string value.

Lemma default_stats_ok :
  counters_ok default_stats /\ default_stats !! "line_changes" = None.
Proof. split; [| reflexivity]. exists 0, 0, 0. repeat split. Qed.

Lemma fs_ok_empty : fs_ok ∅.
Proof. intros f d H. rewrite lookup_empty in H. discriminate. Qed.

Lemma fs_ok_default fs (k : option string) :
  fs_ok fs ->
  counters_ok (default default_stats (fs !! k)) /\
  default default_stats (fs !! k) !! "line_changes" = None.
Proof.
  intros H. destruct (fs !! k) as [d|] eqn:E; simpl.
  - exact (H k d E).
  - exact default_stats_ok.
Qed.

Lemma fs_ok_insert fs (k : option string) d :
  fs_ok fs -> counters_ok d -> d !! "line_changes" = None ->
  fs_ok (<[k := d]> fs).
Proof.
  intros H Hc Hl f d' Hf. destruct (decide (k = f)) as [-> | Hne].
  - rewrite lookup_insert_eq in Hf. injection Hf as <-. now split.
  - rewrite lookup_insert_ne in Hf by exact Hne. exact (H f d' Hf).
Qed.

(** [file_stats[k][key] += 1] in closed form. *)
Lemma incr_eq (key : string) (k : option string) fs (n : Z) :
  default default_stats (fs !! k) !! key = Some (VInt n) ->
  incr key k fs =
    Ok (<[k := <[key := VInt (n + 1)]> (default default_stats (fs !! k))]> fs).
Proof.
  unfold incr, getitem_default. destruct (fs !! k) as [d|] eqn:E; simpl.
  - now intros ->.
  - intros ->. now rewrite insert_insert_eq.
Qed.

(** An addition or a deletion counted: the counter [key] and the
    ["changes"] counter are both incremented. *)
Lemma incr_pair (key : string) (k : option string) fs (a c : Z) :
  key <> "changes" ->
  default default_stats (fs !! k) !! key = Some (VInt a) ->
  default default_stats (fs !! k) !! "changes" = Some (VInt c) ->
  incr key k fs ≫= incr "changes" k =
    Ok (<[k := <["changes" := VInt (c + 1)]>
                 (<[key := VInt (a + 1)]>
                    (default default_stats (fs !! k)))]> fs).
Proof.
  intros Hne Ha Hc. rewrite (incr_eq key k fs a Ha). cbn [mbind result_bind].
  rewrite (incr_eq "changes" k _ c).
  - rewrite lookup_insert_eq. simpl. now rewrite insert_insert_eq.
  - rewrite lookup_insert_eq. simpl. now rewrite lookup_insert_ne.
Qed.

Lemma counted_ok (key : string) (k : option string) fs :
  key = "additions" \/ key = "deletions" -> fs_ok fs ->
  exists fs', incr key k fs ≫= incr "changes" k = Ok fs' /\ fs_ok fs'.
Proof.
  intros Hk H.
  destruct (fs_ok_default fs k H) as [(a & b & c & Ha & Hb & Hc & Hsum) Hl].
  destruct Hk as [-> | ->].
  - eexists. split; [apply (incr_pair _ _ _ a c); [discriminate | exact Ha | exact Hc] |].
    apply fs_ok_insert; [exact H | |].
    + exists (a + 1), b, (c + 1).
      repeat split;
        repeat (rewrite lookup_insert_eq || rewrite lookup_insert_ne by discriminate);
        (reflexivity || assumption || lia).
    + now rewrite !lookup_insert_ne by discriminate.
  - eexists. split; [apply (incr_pair _ _ _ b c); [discriminate | exact Hb | exact Hc] |].
    apply fs_ok_insert; [exact H | |].
    + exists a, (b + 1), (c + 1).
      repeat split;
        repeat (rewrite lookup_insert_eq || rewrite lookup_insert_ne by discriminate);
        (reflexivity || assumption || lia).
    + now rewrite !lookup_insert_ne by discriminate.
Qed.

(** With no ["line_changes"] key in any dictionary, recording a change
    raises [KeyError]. *)
Lemma record_change_raises (type : string) (n : Z) (line : string)
    (st : state) :
  fs_ok (file_stats st) ->
  record_change type n line st = Raise (KeyError "line_changes").
Proof.
  intros H. unfold record_change, append_to, getitem_default.
  destruct (file_stats st !! current_file st) as [d|] eqn:E.
  - destruct (H _ _ E) as [_ ->]. reflexivity.
  - reflexivity.
Qed.

Lemma count_pass_ok (lines : list string) fs (cf : option string) fs' :
  fs_ok fs -> count_pass lines fs cf = Ok fs' -> fs_ok fs'.
Proof.
  revert fs cf. induction lines as [|line rest IH]; intros fs cf H.
  - now intros [= <-].
  - cbn [count_pass].
    destruct (PyStr.startswith line "diff --git").
    { destruct (file_path_of line); cbn [mbind result_bind];
        [now apply IH | discriminate]. }
    destruct (is_addition line).
    { destruct (counted_ok "additions" cf fs (or_introl eq_refl) H)
        as (fs2 & E & H2).
      destruct (incr "additions" cf fs); cbn [mbind result_bind] in *;
        [| discriminate].
      rewrite E. cbn [mbind result_bind]. now apply IH. }
    destruct (is_deletion line).
    { destruct (counted_ok "deletions" cf fs (or_intror eq_refl) H)
        as (fs2 & E & H2).
      destruct (incr "deletions" cf fs); cbn [mbind result_bind] in *;
        [| discriminate].
      rewrite E. cbn [mbind result_bind]. now apply IH. }
    now apply IH.
Qed.

End Counters.

(** ** The scan *)

Section Scan.

Implicit Types fs : gmap (option string) (gmap string value).

Lemma bind_pair {A B C : Type} (m : result A) (f : A -> result B)
    (g : B -> result C) (x : B) :
  m ≫= f = Ok x -> (m ≫= fun y => f y ≫= g) = g x.
Proof.
  destruct m as [a|e]; cbn [mbind result_bind]; [| discriminate].
  now intros ->.
Qed.

(** A counted line whose cursor is set raises [KeyError]; with the cursor
    unset the iteration ends after the two increments. *)
Lemma body_counted (lines : list string) (st : state) (line : string)
    (add : bool) :
  lines !! i st = Some line ->
  PyStr.startswith line "diff --git" = false ->
  PyStr.startswith line "@@" = false ->
  (if add then is_addition line else is_deletion line) = true ->
  is_addition line = add ->
  fs_ok (file_stats st) ->
  exists fs',
    incr (if add then "additions" else "deletions") (current_file st)
      (file_stats st) ≫= incr "changes" (current_file st) = Ok fs' /\
    fs_ok fs' /\
    body lines st =
      match (if add then new_line_num st else old_line_num st) with
      | Some _ => Raise (KeyError "line_changes")
      | None =>
          Ok (State fs' (current_file st) (current_class st)
                (current_method st) (old_line_num st) (new_line_num st)
                (S (i st)))
      end.
Proof.
  intros Hl Hf Hh Hk Ha Hok.
  destruct (counted_ok (if add then "additions" else "deletions")
              (current_file st) (file_stats st)) as (fs' & E & Hok');
    [destruct add; auto | exact Hok |].
  exists fs'. split; [exact E |]. split; [exact Hok' |].
  unfold body, index. rewrite Hl. cbn [mbind result_bind].
  rewrite Hf, Hh, Ha. destruct add.
  - rewrite (bind_pair _ _ _ _ E).
    destruct (new_line_num st) as [n|] eqn:En; [| reflexivity].
    now rewrite record_change_raises.
  - rewrite Hk. rewrite (bind_pair _ _ _ _ E).
    destruct (old_line_num st) as [n|] eqn:En; [| reflexivity].
    now rewrite record_change_raises.
Qed.

Lemma body_ok (lines : list string) (st st' : state) :
  fs_ok (file_stats st) -> body lines st = Ok st' ->
  fs_ok (file_stats st') /\ i st' = S (i st).
Proof.
  intros Hok H.
  destruct (lines !! i st) as [line|] eqn:Hl;
    [| unfold body, index in H; rewrite Hl in H; discriminate].
  destruct (PyStr.startswith line "diff --git") eqn:Hf.
  { destruct (body_file_header lines st line Hl Hf) as (f & _ & E).
    rewrite E in H. injection H as <-. now split. }
  destruct (PyStr.startswith line "@@") eqn:Hh.
  { rewrite (body_hunk_header lines st line Hl Hh) in H.
    destruct (hunk_starts line) as [[old new]|]; cbn [mbind result_bind] in H;
      [| discriminate].
    injection H as <-. now split. }
  destruct (is_addition line) eqn:Ha.
  { destruct (body_counted lines st line true Hl Hf Hh Ha Ha Hok)
      as (fs' & _ & Hok' & E).
    rewrite E in H. destruct (new_line_num st); [discriminate |].
    injection H as <-. now split. }
  destruct (is_deletion line) eqn:Hd.
  { destruct (body_counted lines st line false Hl Hf Hh Hd Ha Hok)
      as (fs' & _ & Hok' & E).
    rewrite E in H. destruct (old_line_num st); [discriminate |].
    injection H as <-. now split. }
  unfold body, index in H. rewrite Hl in H. cbn [mbind result_bind] in H.
  rewrite Hf, Hh, Ha, Hd in H.
  destruct (is_context line); [| injection H as <-; now split].
  destruct (if has_class line then _ else _); cbn [mbind result_bind] in H;
    [| discriminate].
  destruct (if has_def line then _ else _); cbn [mbind result_bind] in H;
    [| discriminate].
  injection H as <-. now split.
Qed.

Lemma scan_past (fuel : nat) (lines : list string) (st : state) :
  (length lines <= i st)%nat -> scan fuel lines st = Ok st.
Proof.
  intros H. destruct fuel; simpl;
    destruct (Nat.ltb_spec (i st) (length lines)); (reflexivity || lia).
Qed.

Lemma scan_step (fuel : nat) (lines : list string) (st : state) :
  (i st < length lines)%nat ->
  scan (S fuel) lines st = body lines st ≫= scan fuel lines.
Proof.
  intros H. cbn [scan].
  destruct (Nat.ltb_spec (i st) (length lines)); [reflexivity | lia].
Qed.

Lemma scan_ok (fuel : nat) (lines : list string) (st st' : state) :
  fs_ok (file_stats st) -> scan fuel lines st = Ok st' ->
  fs_ok (file_stats st') /\
  ((i st + fuel <= length lines)%nat -> i st' = (i st + fuel)%nat).
Proof.
  revert st. induction fuel as [|fuel IH]; intros st Hok H.
  - simpl in H. destruct (_ <? _)%nat; injection H as <-;
      (split; [exact Hok | lia]).
  - destruct (Nat.ltb_spec (i st) (length lines)) as [Hlt | Hge].
    + rewrite scan_step in H by exact Hlt.
      destruct (body lines st) as [st1|] eqn:E; cbn [mbind result_bind] in H;
        [| discriminate].
      destruct (body_ok lines st st1 Hok E) as [Hok1 Hi].
      destruct (IH st1 Hok1 H) as [Hok' Hi']. split; [exact Hok' |].
      intros Hb. rewrite Hi', Hi; lia.
    + rewrite scan_past in H by exact Hge. injection H as <-.
      split; [exact Hok | lia].
Qed.

Lemma scan_app (fuel1 fuel2 : nat) (lines : list string) (st : state) :
  scan (fuel1 + fuel2) lines st =
    scan fuel1 lines st ≫= scan fuel2 lines.
Proof.
  revert st. induction fuel1 as [|fuel1 IH]; intros st.
  - simpl. now destruct (_ <? _)%nat.
  - destruct (Nat.ltb_spec (i st) (length lines)) as [Hlt | Hge].
    + change (S fuel1 + fuel2)%nat with (S (fuel1 + fuel2)).
      rewrite !scan_step by exact Hlt.
      destruct (body lines st) as [st1|]; cbn [mbind result_bind];
        [apply IH | reflexivity].
    + rewrite !scan_past by exact Hge. cbn [mbind result_bind].
      now rewrite scan_past.
Qed.

(** The loop ends by its condition: the fuel that [classify] gives is
    enough, and more of it changes nothing. *)
Lemma scan_enough_fuel (fuel : nat) (lines : list string) (st : state) :
  fs_ok (file_stats st) ->
  (length lines - i st <= fuel)%nat ->
  scan fuel lines st = scan (length lines - i st) lines st /\
  forall st', scan fuel lines st = Ok st' -> (length lines <= i st')%nat.
Proof.
  intros Hok Hle.
  destruct (Nat.le_exists_sub _ _ Hle) as (extra & -> & _).
  rewrite (Nat.add_comm extra), scan_app.
  destruct (scan (length lines - i st) lines st) as [st1|] eqn:E;
    cbn [mbind result_bind]; [| split; [reflexivity | discriminate]].
  destruct (scan_ok _ _ _ _ Hok E) as [_ Hi].
  assert (length lines <= i st1)%nat.
  { destruct (Nat.le_gt_cases (i st) (length lines)).
    - rewrite Hi; lia.
    - rewrite scan_past in E by lia. injection E as <-. lia. }
  rewrite scan_past by assumption. split; [reflexivity |].
  now intros st' [= <-].
Qed.

(** A hunk header that does not parse stops the scan. *)
Lemma scan_reaches (lines : list string) (k : nat) (line : string) (e : exn) :
  lines !! k = Some line ->
  PyStr.startswith line "@@" = true ->
  hunk_starts line = Raise e ->
  forall (fuel : nat) (st : state),
    fs_ok (file_stats st) -> (i st <= k)%nat -> (k < i st + fuel)%nat ->
    exists e', scan fuel lines st = Raise e' /\
      (i st = k -> e' = e).
Proof.
  intros Hl Hh He. pose proof (lookup_lt_Some _ _ _ Hl) as Hk.
  induction fuel as [|fuel IH]; intros st Hok H1 H2; [lia |].
  rewrite scan_step by lia.
  destruct (decide (i st = k)) as [Hi | Hi].
  - rewrite (body_hunk_header lines st line) by (rewrite ?Hi; assumption).
    rewrite He. cbn [mbind result_bind]. eauto.
  - destruct (body lines st) as [st1|e1] eqn:E; cbn [mbind result_bind].
    + destruct (body_ok lines st st1 Hok E) as [Hok1 Hi1].
      destruct (IH st1 Hok1) as (e' & -> & _); [lia | lia |].
      exists e'. split; [reflexivity | intros; lia].
    + exists e1. split; [reflexivity | intros; lia].
Qed.

End Scan.

(** * The claims *)

Lemma scenario_lines :
  PyStr.split nl (String.concat nl scenario) = scenario.
Proof. vm_compute. reflexivity. Qed.

(** A change line in front of every hunk header is counted twice, once by
    each pass, and recorded nowhere. *)
Lemma unrecorded_change :
  classify ["diff --git a/f.py b/f.py"; "+x"] =
    Ok {[ Some "f.py" :=
            {[ "additions" := VInt 2; "deletions" := VInt 0;
               "changes" := VInt 2 ]} ]}.
Proof. vm_compute. reflexivity. Qed.

(** C1: on the six-line scenario the first pass counts one addition, one
    deletion and two changes for [foo.py], and the second pass reaches the
    added line with the class [Foo] and the line number 2; there the
    append to the missing ["line_changes"] list raises [KeyError], so that
    no summary is produced. *)
Theorem scenario_raises_key_error :
  count_pass scenario ∅ None =
    Ok {[ Some "foo.py" :=
            {[ "additions" := VInt 1; "deletions" := VInt 1;
               "changes" := VInt 2 ]} ]} /\
  (forall fs, scan 3 scenario (initial fs) =
     Ok (State fs (Some "foo.py") (Some "Foo") None (Some 2) (Some 2) 3)) /\
  classify scenario = Raise (KeyError "line_changes") /\
  (forall names stat,
     analyze_commit_changes names stat (String.concat nl scenario) =
       Raise (KeyError "line_changes")).
Proof.
  split; [vm_compute; reflexivity |].
  split; [intros fs; reflexivity |].
  assert (H : classify scenario = Raise (KeyError "line_changes"))
    by (vm_compute; reflexivity).
  split; [exact H |]. intros names stat.
  unfold analyze_commit_changes. rewrite scenario_lines, H.
  reflexivity.
Qed.

(** C2, as stated, fails: a produced summary whose [additions] counter is
    2 while it records no addition. *)
Lemma counters_exceed_records :
  exists fs d,
    classify ["diff --git a/f.py b/f.py"; "+x"] = Ok fs /\
    fs !! Some "f.py" = Some d /\
    d !! "additions" = Some (VInt 2) /\
    Z.of_nat (recorded "addition" d) <> 2.
Proof.
  eexists _, _. split; [exact unrecorded_change |].
  split; [reflexivity |]. split; [reflexivity |].
  vm_compute. discriminate.
Qed.

(** C2, amended: in every file summary that the classifier produces the
    three counters are integers with [additions + deletions = changes]. *)
Theorem counters_add_up (lines : list string)
    (fs : gmap (option string) (gmap string value))
    (f : option string) (d : gmap string value) :
  classify lines = Ok fs -> fs !! f = Some d ->
  exists a b c : Z,
    d !! "additions" = Some (VInt a) /\ d !! "deletions" = Some (VInt b) /\
    d !! "changes" = Some (VInt c) /\ a + b = c.
Proof.
  unfold classify. intros H Hf.
  destruct (count_pass lines ∅ None) as [fs1|] eqn:E1;
    cbn [mbind result_bind] in H; [| discriminate].
  pose proof (count_pass_ok _ _ _ _ fs_ok_empty E1) as Hok1.
  destruct (scan _ _ _) as [st|] eqn:E2; cbn [mbind result_bind] in H;
    [| discriminate].
  injection H as <-.
  destruct (scan_ok _ _ (initial fs1) _ Hok1 E2) as [Hok _].
  exact (proj1 (Hok f d Hf)).
Qed.

Lemma counters_add_up_witness :
  exists a b c : Z,
    ({[ "additions" := VInt 2; "deletions" := VInt 0; "changes" := VInt 2 ]}
       : gmap string value) !! "additions" = Some (VInt a) /\
    ({[ "additions" := VInt 2; "deletions" := VInt 0; "changes" := VInt 2 ]}
       : gmap string value) !! "deletions" = Some (VInt b) /\
    ({[ "additions" := VInt 2; "deletions" := VInt 0; "changes" := VInt 2 ]}
       : gmap string value) !! "changes" = Some (VInt c) /\
    a + b = c.
Proof.
  apply (counters_add_up ["diff --git a/f.py b/f.py"; "+x"]
           {[ Some "f.py" :=
                {[ "additions" := VInt 2; "deletions" := VInt 0;
                   "changes" := VInt 2 ]} ]}
           (Some "f.py")).
  - vm_compute. reflexivity.
  - reflexivity.
Defined.


(** C3, as stated, fails: with two class definitions in the lookahead
    window the class after the hunk header, with which the added line
    that follows is met, is the last of them, not the first. *)
Lemma lookahead_takes_last_class :
  exists st',
    body ["@@ -1 +1 @@"; "+x"; " class A:"; " class B:"] (initial ∅)
      = Ok st' /\
    context_window ["@@ -1 +1 @@"; "+x"; " class A:"; " class B:"] 0
      = [" class A:"; " class B:"] /\
    spec_first_class_match
      (context_window ["@@ -1 +1 @@"; "+x"; " class A:"; " class B:"] 0)
      = Some "A" /\
    current_class st' = Some "B" /\
    ["@@ -1 +1 @@"; "+x"; " class A:"; " class B:"] !! i st' = Some "+x".
Proof. eexists. repeat split. Qed.

(** C3, amended: at a hunk header that parses, the lookahead keeps, of
    the at most 19 lines that follow the header, those that start with
    neither [+] nor [-]; the last class definition among them is the class
    after the header (none when there is none).  The cursors are those of
    the header, and the scan position advances by the header line only.
    The 20 iterations granted to the lookahead loop are never used up. *)
Theorem hunk_lookahead (lines : list string) (st : state) (line : string)
    (old new : Z) :
  lines !! i st = Some line ->
  PyStr.startswith line "@@" = true ->
  hunk_starts line = Ok (old, new) ->
  body lines st =
    Ok (State (file_stats st) (current_file st)
          (last_class_match (context_window lines (i st))) None
          (Some old) (Some new) (S (i st))) /\
  forall fuel, (19 <= fuel)%nat ->
    collect_context fuel lines (i st) (i st + 1) [] =
      context_window lines (i st).
Proof.
  intros Hl Hh Hp. split.
  - rewrite (body_hunk_header lines st line Hl Hh), Hp. reflexivity.
  - intros fuel Hfuel. rewrite collect_context_take. unfold context_window.
    replace (fuel `min` (i st + 20 - (i st + 1)))%nat with 19%nat by lia.
    now replace (i st + 1)%nat with (S (i st)) by lia.
Qed.

Lemma hunk_lookahead_witness :
  body ["@@ -1 +1 @@"; "+x"; " class A:"; " class B:"] (initial ∅) =
    Ok (State ∅ None (Some "B") None (Some 1) (Some 1) 1).
Proof.
  apply (hunk_lookahead ["@@ -1 +1 @@"; "+x"; " class A:"; " class B:"]
           (initial ∅) "@@ -1 +1 @@" 1 1); reflexivity.
Defined.







(** C6: a file header leaves the class and the method unset; a hunk
    header that parses leaves the method unset and a class that is taken
    from its lookahead window alone: nothing of the class and the method
    tracked before the header survives, and without a class definition in
    the window the class is unset. *)
Theorem headers_reset_context (lines : list string) (st : state)
    (line : string) :
  lines !! i st = Some line ->
  (PyStr.startswith line "diff --git" = true ->
   exists st', body lines st = Ok st' /\
     current_class st' = None /\ current_method st' = None) /\
  (PyStr.startswith line "@@" = true ->
   forall st', body lines st = Ok st' ->
     current_method st' = None /\
     current_class st' = last_class_match (context_window lines (i st)) /\
     (class_names (context_window lines (i st)) = [] ->
      current_class st' = None) /\
     forall cls mth,
       body lines (State (file_stats st) (current_file st) cls mth
                     (old_line_num st) (new_line_num st) (i st)) = Ok st').
Proof.
  intros Hl. split.
  - intros Hf. destruct (body_file_header lines st line Hl Hf) as (f & _ & E).
    eexists. split; [exact E |]. split; reflexivity.
  - intros Hh st' H.
    assert (Hcls : forall cls mth,
      body lines (State (file_stats st) (current_file st) cls mth
                    (old_line_num st) (new_line_num st) (i st)) = Ok st').
    { intros cls mth. rewrite <- H.
      rewrite !(body_hunk_header _ _ line) by assumption. reflexivity. }
    rewrite (body_hunk_header lines st line Hl Hh) in H.
    destruct (hunk_starts line) as [[old new]|]; cbn [mbind result_bind] in H;
      [| discriminate].
    injection H as <-. cbn [current_method current_class].
    split; [reflexivity |]. split; [reflexivity |]. split; [| exact Hcls].
    unfold last_class_match. now intros ->.
Qed.

Lemma headers_reset_context_witness :
  (exists st',
     body ["diff --git a/f.py b/f.py"]
       (State ∅ (Some "g.py") (Some "Old") (Some "meth") (Some 4) (Some 5) 0)
       = Ok st' /\
     current_class st' = None /\ current_method st' = None) /\
  (current_method (State ∅ None None None (Some 1) (Some 1) 1) = None /\
   current_class (State ∅ None None None (Some 1) (Some 1) 1) = None).
Proof.
  split.
  - apply (headers_reset_context ["diff --git a/f.py b/f.py"]
             (State ∅ (Some "g.py") (Some "Old") (Some "meth")
                (Some 4) (Some 5) 0)
             "diff --git a/f.py b/f.py" eq_refl).
    reflexivity.
  - destruct (proj2 (headers_reset_context ["@@ -1 +1 @@"; " x = 1"]
                       (State ∅ None (Some "Old") (Some "meth") None None 0)
                       "@@ -1 +1 @@" eq_refl)
                eq_refl (State ∅ None None None (Some 1) (Some 1) 1) eq_refl)
      as (Hm & Hc & _).
    split; [exact Hm | reflexivity].
Defined.

(** C7, as stated, fails: the added line [++i;] of a diff, written
    [+++i;], is no header and falls outside the three cases; the iteration
    only moves to the next line. *)
Lemma triple_plus_line_unclassified :
  PyStr.startswith "+++i;" "diff --git" = false /\
  PyStr.startswith "+++i;" "@@" = false /\
  is_addition "+++i;" = false /\ is_deletion "+++i;" = false /\
  is_context "+++i;" = false /\
  body ["+++i;"] (initial ∅) = Ok (State ∅ None None None None None 1).
Proof. repeat split. Qed.

(** C7, amended: a line that is no file header and no hunk header falls
    in none of the three cases when it starts with [+++], [---] or [diff],
    and in exactly one of them otherwise. *)
Theorem classification_cases (line : string) :
  PyStr.startswith line "diff --git" = false ->
  PyStr.startswith line "@@" = false ->
  if PyStr.startswith line "+++" || PyStr.startswith line "---"
     || PyStr.startswith line "diff"
  then is_addition line = false /\ is_deletion line = false /\
       is_context line = false
  else (is_addition line = true /\ is_deletion line = false /\
        is_context line = false) \/
       (is_addition line = false /\ is_deletion line = true /\
        is_context line = false) \/
       (is_addition line = false /\ is_deletion line = false /\
        is_context line = true).
Proof.
  intros _ Hh. unfold is_addition, is_deletion, is_context. rewrite Hh.
  destruct (PyStr.startswith line "+") eqn:P.
  { apply startswith_first in P as [r ->].
    change (PyStr.startswith (String "+" r) "+++")
      with (PyStr.startswith r "++").
    change (PyStr.startswith (String "+" r) "---") with false.
    change (PyStr.startswith (String "+" r) "diff") with false.
    change (PyStr.startswith (String "+" r) "+") with true.
    change (PyStr.startswith (String "+" r) "-") with false.
    destruct (PyStr.startswith r "++"); cbn [orb andb negb]; one_case. }
  destruct (PyStr.startswith line "-") eqn:M.
  { apply startswith_first in M as [r ->].
    change (PyStr.startswith (String "-" r) "---")
      with (PyStr.startswith r "--").
    change (PyStr.startswith (String "-" r) "+++") with false.
    change (PyStr.startswith (String "-" r) "diff") with false.
    change (PyStr.startswith (String "-" r) "+") with false.
    change (PyStr.startswith (String "-" r) "-") with true.
    destruct (PyStr.startswith r "--"); cbn [orb andb negb]; one_case. }
  destruct (PyStr.startswith line "+++") eqn:E1.
  { apply (startswith_prefix line "+" "++") in E1. congruence. }
  destruct (PyStr.startswith line "---") eqn:E2.
  { apply (startswith_prefix line "-" "--") in E2. congruence. }
  destruct (PyStr.startswith line "diff"); cbn [orb andb negb]; one_case.
Qed.

Lemma classification_cases_witness :
  (is_addition "+x" = true /\ is_deletion "+x" = false /\
   is_context "+x" = false) \/
  (is_addition "+x" = false /\ is_deletion "+x" = true /\
   is_context "+x" = false) \/
  (is_addition "+x" = false /\ is_deletion "+x" = false /\
   is_context "+x" = true).
Proof. apply (classification_cases "+x"); reflexivity. Defined.

Section LastOccurrence.

Local Arguments String.append : simpl nomatch.

(** After an occurrence of [" b/"] that is followed by no other, no
    occurrence starts further right. *)
Lemma last_occurrence (pre f pre' f' : string) :
  PyStr.contains " b/" f = false ->
  pre +:+ " b/" +:+ f = pre' +:+ " b/" +:+ f' ->
  (String.length pre' <= String.length pre)%nat.
Proof.
  intros Hc H.
  destruct (Nat.le_gt_cases (String.length pre') (String.length pre))
    as [Hle | Hgt]; [exact Hle | exfalso].
  destruct (app_eq_app_le pre (" b/" +:+ f) pre' (" b/" +:+ f') H)
    as (u & -> & Hu); [lia |].
  rewrite length_app_s in Hgt.
  destruct u as [|c1 [|c2 [|c3 u]]]; simpl in Hu, Hgt.
  - lia.
  - discriminate.
  - discriminate.
  - assert (f = u +:+ " b/" +:+ f') as -> by (injection Hu; auto).
    rewrite contains_app in Hc. discriminate.
Qed.

End LastOccurrence.

(** C9: a file header sets the current file to the last piece of the line
    split at [" b/"]: the text that follows the last occurrence of the
    token, or the whole line when the token does not occur.  Both passes
    take the path in this way: in the second pass it is the current file
    of the state, and in the first pass it is the file under which the
    lines after the header are counted, whatever the file was before. *)
Theorem file_header_sets_current_file (lines : list string) (st : state)
    (line : string) :
  lines !! i st = Some line ->
  PyStr.startswith line "diff --git" = true ->
  exists f,
    file_path_of line = Ok f /\
    body lines st =
      Ok (State (file_stats st) (Some f) None None
            (old_line_num st) (new_line_num st) (S (i st))) /\
    (forall rest fs cf,
       count_pass (line :: rest) fs cf = count_pass rest fs (Some f)) /\
    (forall (l : string) (add : bool)
            (fs : gmap (option string) (gmap string value))
            (cf : option string),
       fs_ok fs ->
       (if add then is_addition l else is_deletion l) = true ->
       exists (a c : Z) (d : gmap string value),
         d = default default_stats (fs !! Some f) /\
         d !! (if add then "additions" else "deletions") = Some (VInt a) /\
         d !! "changes" = Some (VInt c) /\
         count_pass [line; l] fs cf =
           Ok (<[Some f :=
                   <["changes" := VInt (c + 1)]>
                     (<[(if add then "additions" else "deletions")
                          := VInt (a + 1)]> d)]> fs)) /\
    ((exists pre, line = pre +:+ " b/" +:+ f /\
        forall pre' f', line = pre' +:+ " b/" +:+ f' ->
          (String.length pre' <= String.length pre)%nat) \/
     (f = line /\ forall pre' f', line <> pre' +:+ " b/" +:+ f')).
Proof.
  intros Hl Hf.
  destruct (body_file_header lines st line Hl Hf) as (f & Hp & E).
  exists f. split; [exact Hp |]. split; [exact E |]. split.
  { intros rest fs cf. cbn [count_pass]. now rewrite Hf, Hp. }
  split.
  { intros l add fs cf Hok Hk.
    destruct (fs_ok_default fs (Some f) Hok)
      as [(a & b & c & Ha & Hb & Hc & _) _].
    exists (if add then a else b), c. eexists. split; [reflexivity |].
    assert (Hka : default default_stats (fs !! Some f)
                    !! (if add then "additions" else "deletions")
                  = Some (VInt (if add then a else b)))
      by (destruct add; assumption).
    split; [exact Hka |]. split; [exact Hc |].
    assert (Hkey : (if add then "additions" else "deletions") <> "changes")
      by (destruct add; discriminate).
    pose proof (incr_pair _ (Some f) fs _ c Hkey Hka Hc) as Ei.
    cbn [count_pass]. rewrite Hf, Hp. cbn [mbind result_bind].
    destruct add.
    - assert (Hs : PyStr.startswith l "+" = true)
        by (unfold is_addition in Hk; now apply andb_true_iff in Hk as [H _]).
      apply startswith_first in Hs as [r ->].
      change (PyStr.startswith (String "+" r) "diff --git") with false.
      rewrite Hk. now rewrite (bind_pair _ _ _ _ Ei).
    - assert (Hs : PyStr.startswith l "-" = true)
        by (unfold is_deletion in Hk; now apply andb_true_iff in Hk as [H _]).
      apply startswith_first in Hs as [r ->].
      change (PyStr.startswith (String "-" r) "diff --git") with false.
      change (is_addition (String "-" r)) with false.
      rewrite Hk. now rewrite (bind_pair _ _ _ _ Ei). }
  destruct (split_last " b/" line) as (f0 & Hlast & Hc & Hcase);
    [discriminate |].
  assert (f0 = f) as ->.
  { unfold file_path_of, index_last in Hp. rewrite Hlast in Hp. congruence. }
  destruct Hcase as [[_ ->] | [pre ->]].
  - right. split; [reflexivity |]. intros pre' f' ->.
    rewrite contains_app in Hc. discriminate.
  - left. exists pre. split; [reflexivity |]. intros pre' f' H.
    exact (last_occurrence pre f pre' f' Hc H).
Qed.

Lemma file_header_sets_current_file_witness :
  exists f,
    file_path_of "diff --git a/x b/y b/z.py" = Ok f /\
    body ["diff --git a/x b/y b/z.py"] (initial ∅) =
      Ok (State ∅ (Some f) None None None None 1) /\
    count_pass ["diff --git a/x b/y b/z.py"; "+x"] ∅ (Some "w.py") =
      Ok {[ Some f := counters 1 0 1 ]}.
Proof.
  destruct (file_header_sets_current_file ["diff --git a/x b/y b/z.py"]
              (initial ∅) "diff --git a/x b/y b/z.py" eq_refl eq_refl)
    as (f & Hp & E & _ & Hcount & _).
  exists f. split; [exact Hp |]. split; [exact E |].
  destruct (Hcount "+x" true ∅ (Some "w.py") fs_ok_empty eq_refl)
    as (a & c & d & Hd & Ha & Hc & Ecount).
  rewrite Ecount. clear Ecount E Hcount.
  vm_compute in Hp. injection Hp as <-. subst d.
  vm_compute in Ha, Hc. injection Ha as <-. injection Hc as <-.
  vm_compute. reflexivity.
Defined.

Section UnsetCursors.

Lemma deletion_not_addition (line : string) :
  is_deletion line = true -> is_addition line = false.
Proof.
  unfold is_deletion, is_addition. intros H.
  apply andb_true_iff in H as [H _]. apply startswith_first in H as [r ->].
  reflexivity.
Qed.

(** Only a hunk header sets a cursor. *)
Lemma body_unset (lines : list string) (st st' : state) (line : string) :
  lines !! i st = Some line ->
  PyStr.startswith line "@@" = false ->
  old_line_num st = None -> new_line_num st = None ->
  body lines st = Ok st' ->
  old_line_num st' = None /\ new_line_num st' = None /\ i st' = S (i st).
Proof.
  intros Hl Hh Ho Hn H. unfold body, index in H.
  rewrite Hl, Ho, Hn in H. cbn [mbind result_bind] in H. rewrite Hh in H.
  repeat match type of H with
  | mbind _ ?m = _ => destruct m; cbn [mbind result_bind] in H
  | (if ?c then _ else _) = _ => destruct c
  end; try discriminate; injection H as <-; repeat split.
Qed.

Lemma scan_unset (lines : list string) (fuel : nat) (st st' : state) :
  (forall j l, (i st <= j < i st + fuel)%nat -> lines !! j = Some l ->
     PyStr.startswith l "@@" = false) ->
  old_line_num st = None -> new_line_num st = None ->
  scan fuel lines st = Ok st' ->
  old_line_num st' = None /\ new_line_num st' = None.
Proof.
  revert st. induction fuel as [|fuel IH]; intros st Hno Ho Hn H.
  - simpl in H. destruct (_ <? _)%nat; injection H as <-; now split.
  - destruct (Nat.ltb_spec (i st) (length lines)) as [Hlt | Hge].
    + rewrite scan_step in H by exact Hlt.
      destruct (body lines st) as [st1|] eqn:E; cbn [mbind result_bind] in H;
        [| discriminate].
      destruct (lookup_lt_is_Some_2 lines (i st) Hlt) as [l Hl].
      destruct (body_unset lines st st1 l Hl (Hno (i st) l ltac:(lia) Hl) Ho Hn E)
        as (Ho1 & Hn1 & Hi1).
      apply (IH st1); [| assumption | assumption | exact H].
      intros j l' Hj. apply Hno. lia.
    + rewrite scan_past in H by exact Hge. injection H as <-. now split.
Qed.

End UnsetCursors.

(** C10: an addition met while the new cursor is unset, and a deletion
    met while the old cursor is unset, increments its counter and the
    [changes] counter of the current file and appends to no list: the
    rest of the per-file dictionary and of the state is unchanged but for
    the scan position.  The cursors are unset as long as no hunk header
    has been met, and then the counters exceed the number of recorded
    changes. *)
Theorem unset_cursor_counts_without_record (lines : list string)
    (st : state) (line : string) (add : bool) :
  lines !! i st = Some line ->
  PyStr.startswith line "diff --git" = false ->
  PyStr.startswith line "@@" = false ->
  (if add then is_addition line else is_deletion line) = true ->
  (if add then new_line_num st else old_line_num st) = None ->
  fs_ok (file_stats st) ->
  (exists (a c : Z) (d d' : gmap string value),
     d = default default_stats (file_stats st !! current_file st) /\
     d !! (if add then "additions" else "deletions") = Some (VInt a) /\
     d !! "changes" = Some (VInt c) /\
     d' = <["changes" := VInt (c + 1)]>
            (<[(if add then "additions" else "deletions") := VInt (a + 1)]> d) /\
     body lines st =
       Ok (State (<[current_file st := d']> (file_stats st))
             (current_file st) (current_class st) (current_method st)
             (old_line_num st) (new_line_num st) (S (i st))) /\
     d' !! "line_changes" = d !! "line_changes" /\
     d' !! "class_method_changes" = d !! "class_method_changes") /\
  (forall k fs st',
     (forall j l, (j < k)%nat -> lines !! j = Some l ->
        PyStr.startswith l "@@" = false) ->
     scan k lines (initial fs) = Ok st' ->
     old_line_num st' = None /\ new_line_num st' = None) /\
  (exists fs d,
     classify ["diff --git a/f.py b/f.py"; "+x"] = Ok fs /\
     fs !! Some "f.py" = Some d /\
     d !! "additions" = Some (VInt 2) /\ d !! "changes" = Some (VInt 2) /\
     recorded "addition" d = O /\ d !! "class_method_changes" = None).
Proof.
  intros Hl Hf Hh Hk Hc Hok. split; [| split].
  - assert (Ha : is_addition line = add).
    { destruct add; [exact Hk | now apply deletion_not_addition]. }
    destruct (body_counted lines st line add Hl Hf Hh Hk Ha Hok)
      as (fs' & E & _ & Hb).
    destruct (fs_ok_default (file_stats st) (current_file st) Hok)
      as [(a & b & c & Ha' & Hb' & Hc' & _) _].
    set (key := if add then "additions" else "deletions") in *.
    assert (Hkey : key <> "changes") by (unfold key; destruct add; discriminate).
    exists (if add then a else b), c. do 2 eexists.
    split; [reflexivity |].
    assert (Hka : default default_stats (file_stats st !! current_file st)
                    !! key = Some (VInt (if add then a else b)))
      by (unfold key; destruct add; assumption).
    split; [exact Hka |]. split; [exact Hc' |]. split; [reflexivity |].
    rewrite (incr_pair key _ _ _ c Hkey Hka Hc') in E. injection E as <-.
    split; [now rewrite Hb, Hc |].
    assert (Hk1 : key <> "line_changes")
      by (unfold key; destruct add; discriminate).
    assert (Hk2 : key <> "class_method_changes")
      by (unfold key; destruct add; discriminate).
    split; rewrite lookup_insert_ne by discriminate;
      now rewrite lookup_insert_ne.
  - intros k fs st' Hno H.
    apply (scan_unset lines k (initial fs) st'); [| reflexivity | reflexivity | exact H].
    intros j l Hj. apply Hno. simpl in Hj. lia.
  - eexists _, _. split; [exact unrecorded_change |]. repeat split.
Qed.

Lemma unset_cursor_counts_without_record_witness :
  body ["diff --git a/f.py b/f.py"; "-x"]
    (State ∅ (Some "f.py") None None None None 1) =
  Ok (State {[ Some "f.py" :=
                 {[ "additions" := VInt 0; "deletions" := VInt 1;
                    "changes" := VInt 1 ]} ]}
        (Some "f.py") None None None None 2).
Proof.
  destruct (unset_cursor_counts_without_record
              ["diff --git a/f.py b/f.py"; "-x"]
              (State ∅ (Some "f.py") None None None None 1) "-x" false
              eq_refl eq_refl eq_refl eq_refl eq_refl fs_ok_empty)
    as [(a & c & d & d' & Hd & Ha & Hc & Hd' & Hb & _) _].
  rewrite Hb. subst d' d. cbn in Ha, Hc.
  injection Ha as <-. injection Hc as <-. vm_compute. reflexivity.
Defined.

(** * Further properties of the code *)

(** ** The counts of the first pass *)

Section Tally.

Implicit Types fs : gmap (option string) (gmap string value).

Lemma owner_header (before : list string) (line f : string) :
  PyStr.startswith line "diff --git" = true ->
  file_path_of line = Ok f ->
  owner (before ++ [line]) = Some f.
Proof.
  intros Hf Hp. unfold owner. rewrite omap_app. simpl.
  unfold header_path, path_of. rewrite Hf, Hp. simpl. apply last_snoc.
Qed.

Lemma owner_other (before : list string) (line : string) :
  PyStr.startswith line "diff --git" = false ->
  owner (before ++ [line]) = owner before.
Proof.
  intros Hf. unfold owner. rewrite omap_app. simpl.
  unfold header_path. rewrite Hf. simpl. now rewrite app_nil_r.
Qed.

Lemma counters_additions (a b c : Z) :
  <["changes" := VInt (c + 1)]>
    (<["additions" := VInt (a + 1)]> (counters a b c))
  = counters (a + 1) b (c + 1).
Proof.
  apply map_eq. intros k. unfold counters.
  destruct (decide (k = "changes")) as [-> |]; [by simplify_map_eq |].
  destruct (decide (k = "additions")) as [-> |]; [by simplify_map_eq |].
  destruct (decide (k = "deletions")) as [-> |]; by simplify_map_eq.
Qed.

Lemma counters_deletions (a b c : Z) :
  <["changes" := VInt (c + 1)]>
    (<["deletions" := VInt (b + 1)]> (counters a b c))
  = counters a (b + 1) (c + 1).
Proof.
  apply map_eq. intros k. unfold counters.
  destruct (decide (k = "changes")) as [-> |]; [by simplify_map_eq |].
  destruct (decide (k = "additions")) as [-> |]; [by simplify_map_eq |].
  destruct (decide (k = "deletions")) as [-> |]; by simplify_map_eq.
Qed.

Lemma exact_default (A B : option string -> nat) fs (k : option string) :
  exact A B fs ->
  default default_stats (fs !! k)
  = counters (Z.of_nat (A k)) (Z.of_nat (B k)) (Z.of_nat (A k + B k)).
Proof.
  intros H. rewrite (H k). unfold entry_of.
  destruct (Nat.eqb_spec (A k + B k) 0) as [E | E]; [| reflexivity].
  simpl. replace (A k) with O by lia. replace (B k) with O by lia.
  reflexivity.
Qed.

Lemma exact_fs_ok (A B : option string -> nat) fs : exact A B fs -> fs_ok fs.
Proof.
  intros H f d Hf. rewrite (H f) in Hf. unfold entry_of in Hf.
  destruct (_ =? _)%nat; [discriminate |]. injection Hf as <-.
  split; [| reflexivity].
  eexists _, _, _. repeat split. lia.
Qed.

(** One counted line: the entry of the current file gains one addition,
    or one deletion, and the other entries are untouched. *)
Lemma exact_counted (A B : option string -> nat) fs (k : option string)
    (add : bool) :
  exact A B fs ->
  exists fs',
    incr (if add then "additions" else "deletions") k fs
      ≫= incr "changes" k = Ok fs' /\
    exact
      (fun f => (A f + if add && bool_decide (k = f) then 1 else 0)%nat)
      (fun f => (B f + if negb add && bool_decide (k = f) then 1 else 0)%nat)
      fs'.
Proof.
  intros H. pose proof (exact_default A B fs k H) as Hd.
  eexists. split.
  - apply (incr_pair _ k fs
             (Z.of_nat (if add then A k else B k)) (Z.of_nat (A k + B k))).
    + destruct add; discriminate.
    + rewrite Hd. destruct add; reflexivity.
    + rewrite Hd. reflexivity.
  - rewrite Hd. intros f. destruct (decide (k = f)) as [<- | Hne].
    + rewrite lookup_insert_eq, bool_decide_eq_true_2 by reflexivity.
      unfold entry_of.
      destruct add; cbn [andb negb];
        [rewrite counters_additions | rewrite counters_deletions];
        match goal with
        | |- context [(?x =? 0)%nat] => destruct (Nat.eqb_spec x 0); [lia |]
        end;
        f_equal; f_equal; lia.
    + rewrite lookup_insert_ne by exact Hne.
      rewrite bool_decide_eq_false_2 by exact Hne.
      rewrite !andb_false_r, !Nat.add_0_r. apply H.
Qed.

Lemma exact_ext (A B A' B' : option string -> nat) fs :
  (forall f, A f = A' f) -> (forall f, B f = B' f) ->
  exact A B fs -> exact A' B' fs.
Proof. intros HA HB H f. rewrite <- HA, <- HB. apply H. Qed.

Lemma addition_not_deletion (line : string) :
  is_addition line = true -> is_deletion line = false.
Proof.
  unfold is_deletion, is_addition. intros H.
  apply andb_true_iff in H as [H _]. apply startswith_first in H as [r ->].
  reflexivity.
Qed.

Lemma header_not_counted (line : string) :
  PyStr.startswith line "diff --git" = true ->
  is_addition line = false /\ is_deletion line = false.
Proof.
  intros H. apply startswith_first in H as [r ->]. split; reflexivity.
Qed.

(** The first pass from any exact dictionary: it does not raise, and it
    adds the tallies of the lines it reads. *)
Lemma count_pass_exact (rest before : list string)
    (A B : option string -> nat) fs :
  exact A B fs ->
  exists fs',
    count_pass rest fs (owner before) = Ok fs' /\
    exact (fun f => (A f + tally_from is_addition f before rest)%nat)
          (fun f => (B f + tally_from is_deletion f before rest)%nat) fs'.
Proof.
  revert before A B fs.
  induction rest as [|line rest IH]; intros before A B fs H.
  - exists fs. split; [reflexivity |].
    apply (exact_ext A B); [| | exact H]; intros f; simpl; lia.
  - cbn [count_pass tally_from].
    destruct (PyStr.startswith line "diff --git") eqn:Hf.
    { destruct (file_path_of_total line) as [p Hp]. rewrite Hp.
      cbn [mbind result_bind].
      destruct (header_not_counted line Hf) as [Ha Hd]. rewrite Ha, Hd.
      rewrite <- (owner_header before line p Hf Hp).
      destruct (IH (before ++ [line]) A B fs H) as (fs' & E & H').
      exists fs'. split; [exact E |].
      apply (exact_ext _ _ _ _ fs' (fun _ => eq_refl) (fun _ => eq_refl) H'). }
    rewrite <- (owner_other before line Hf).
    destruct (is_addition line) eqn:Ha.
    { rewrite (addition_not_deletion line Ha).
      destruct (exact_counted A B fs (owner (before ++ [line])) true H)
        as (fs2 & E & H2).
      rewrite (bind_pair _ _ _ _ E).
      destruct (IH (before ++ [line]) _ _ fs2 H2) as (fs' & E' & H').
      exists fs'. split; [exact E' |].
      refine (exact_ext _ _ _ _ fs' _ _ H'); intros f; cbn [andb negb]; lia. }
    destruct (is_deletion line) eqn:Hd.
    { destruct (exact_counted A B fs (owner (before ++ [line])) false H)
        as (fs2 & E & H2).
      rewrite (bind_pair _ _ _ _ E).
      destruct (IH (before ++ [line]) _ _ fs2 H2) as (fs' & E' & H').
      exists fs'. split; [exact E' |].
      refine (exact_ext _ _ _ _ fs' _ _ H'); intros f; cbn [andb negb]; lia. }
    destruct (IH (before ++ [line]) A B fs H) as (fs' & E & H').
    exists fs'. split; [exact E |].
    refine (exact_ext _ _ _ _ fs' _ _ H'); intros f; cbn [andb negb]; lia.
Qed.

Lemma exact_empty : exact (fun _ => O) (fun _ => O) ∅.
Proof. intros f. rewrite lookup_empty. reflexivity. Qed.

End Tally.

Lemma first_pass_counts_total (lines : list string) :
  exists fs, count_pass lines ∅ None = Ok fs.
Proof.
  destruct (count_pass_exact lines [] _ _ ∅ exact_empty) as (fs & E & _).
  now exists fs.
Qed.

(** X1: the first pass raises on no diff text, so that the count-only
    analysis always returns its result; the entry of a file holds exactly
    the numbers of addition and deletion lines that belong to it, with
    their sum as [changes], and a file to which no such line belongs has
    no entry. *)
Theorem first_pass_counts (lines : list string) :
  exists fs,
    count_pass lines ∅ None = Ok fs /\
    (forall f, fs !! f =
       entry_of (tally is_addition f lines) (tally is_deletion f lines)) /\
    (forall names stat diff, PyStr.split nl diff = lines ->
       analyze_commit_changes_counts names stat diff =
         Ok (Analysis fs (PyStr.split nl (PyStr.strip names))
               (PyStr.strip stat) diff)).
Proof.
  destruct (count_pass_exact lines [] _ _ ∅ exact_empty) as (fs & E & H).
  change (owner []) with (@None string) in E.
  exists fs. split; [exact E |]. split.
  - intros f. exact (H f).
  - intros names stat diff <-. unfold analyze_commit_changes_counts.
    now rewrite E.
Qed.

(** X2: a line that is no file header, no addition and no deletion (a
    hunk header, a context line, the [+++] and [---] lines) has no
    influence on the first pass. *)
Theorem uncounted_line_ignored (l1 l2 : list string) (x : string)
    (fs : gmap (option string) (gmap string value)) (cf : option string) :
  PyStr.startswith x "diff --git" = false ->
  is_addition x = false -> is_deletion x = false ->
  count_pass (l1 ++ x :: l2) fs cf = count_pass (l1 ++ l2) fs cf.
Proof.
  intros Hf Ha Hd. revert fs cf.
  induction l1 as [|l l1 IH]; intros fs cf.
  - cbn [app count_pass]. now rewrite Hf, Ha, Hd.
  - cbn [app count_pass].
    destruct (PyStr.startswith l "diff --git").
    { destruct (file_path_of l); cbn [mbind result_bind]; [apply IH | reflexivity]. }
    destruct (is_addition l).
    { destruct (incr "additions" cf fs) as [fs1|]; cbn [mbind result_bind];
        [| reflexivity].
      destruct (incr "changes" cf fs1); cbn [mbind result_bind];
        [apply IH | reflexivity]. }
    destruct (is_deletion l).
    { destruct (incr "deletions" cf fs) as [fs1|]; cbn [mbind result_bind];
        [| reflexivity].
      destruct (incr "changes" cf fs1); cbn [mbind result_bind];
        [apply IH | reflexivity]. }
    apply IH.
Qed.

Lemma uncounted_line_ignored_witness :
  count_pass (["diff --git a/f.py b/f.py"; "--- a/f.py"] ++ "+++ b/f.py" :: ["+x"])
    ∅ None =
  count_pass (["diff --git a/f.py b/f.py"; "--- a/f.py"] ++ ["+x"]) ∅ None.
Proof.
  apply (uncounted_line_ignored ["diff --git a/f.py b/f.py"; "--- a/f.py"]
           ["+x"] "+++ b/f.py"); reflexivity.
Defined.

(** ** The second pass as a whole *)

Section SecondPass.

Implicit Types fs : gmap (option string) (gmap string value).

Lemma hunk_not_counted (line : string) :
  PyStr.startswith line "@@" = true ->
  is_addition line = false /\ is_deletion line = false.
Proof.
  intros H. apply startswith_first in H as [r ->]. split; reflexivity.
Qed.

(** The iteration on a line that is no header and is not counted. *)
Lemma body_plain (lines : list string) (st : state) (line : string) :
  lines !! i st = Some line ->
  PyStr.startswith line "diff --git" = false ->
  PyStr.startswith line "@@" = false ->
  is_addition line = false -> is_deletion line = false ->
  body lines st =
    Ok (State (file_stats st) (current_file st)
          (if is_context line && has_class line
           then Some (class_name line) else current_class st)
          (if is_context line && has_def line
           then Some (method_name line) else current_method st)
          (if is_context line
           then (fun n => n + 1) <$> old_line_num st else old_line_num st)
          (if is_context line
           then (fun n => n + 1) <$> new_line_num st else new_line_num st)
          (S (i st))).
Proof.
  intros Hl Hf Hh Ha Hd. unfold body, index. rewrite Hl.
  cbn [mbind result_bind]. rewrite Hf, Hh, Ha, Hd.
  destruct (is_context line); [| reflexivity]. cbn [andb].
  destruct (has_class line) eqn:Hc.
  - rewrite (class_match_of_name line Hc). cbn [fmap result_fmap mbind result_bind].
    destruct (has_def line) eqn:Hm; [| reflexivity].
    destruct (method_match_of_total line Hm) as [m Em].
    unfold method_name. rewrite Em. reflexivity.
  - cbn [mbind result_bind].
    destruct (has_def line) eqn:Hm; [| reflexivity].
    destruct (method_match_of_total line Hm) as [m Em].
    unfold method_name. rewrite Em. reflexivity.
Qed.

(** Where the second pass succeeds, it has done to the dictionary what
    the first pass does on the same lines. *)
Lemma scan_counts (fuel : nat) (lines : list string) (st st' : state) :
  fs_ok (file_stats st) -> (length lines <= i st + fuel)%nat ->
  scan fuel lines st = Ok st' ->
  count_pass (drop (i st) lines) (file_stats st) (current_file st)
    = Ok (file_stats st').
Proof.
  revert st. induction fuel as [|fuel IH]; intros st Hok Hlen H.
  - rewrite scan_past in H by lia. injection H as <-.
    now rewrite drop_ge by lia.
  - destruct (Nat.ltb_spec (i st) (length lines)) as [Hlt | Hge].
    2:{ rewrite scan_past in H by lia. injection H as <-.
        now rewrite drop_ge by lia. }
    rewrite scan_step in H by exact Hlt.
    destruct (body lines st) as [st1|] eqn:E; cbn [mbind result_bind] in H;
      [| discriminate].
    destruct (body_ok lines st st1 Hok E) as [Hok1 Hi1].
    specialize (IH st1 Hok1 ltac:(lia) H). rewrite Hi1 in IH.
    destruct (lookup_lt_is_Some_2 lines (i st) Hlt) as [line Hl].
    rewrite (drop_S _ _ _ Hl). cbn [count_pass].
    destruct (PyStr.startswith line "diff --git") eqn:Hf.
    { destruct (body_file_header lines st line Hl Hf) as (f & Hp & E1).
      rewrite E1 in E. injection E as <-. rewrite Hp.
      cbn [mbind result_bind]. exact IH. }
    destruct (PyStr.startswith line "@@") eqn:Hh.
    { destruct (hunk_not_counted line Hh) as [-> ->].
      rewrite (body_hunk_header lines st line Hl Hh) in E.
      destruct (hunk_starts line) as [[o n]|]; cbn [mbind result_bind] in E;
        [| discriminate].
      injection E as <-. exact IH. }
    destruct (is_addition line) eqn:Ha.
    { destruct (body_counted lines st line true Hl Hf Hh Ha Ha Hok)
        as (fs' & E1 & _ & E2).
      rewrite E2 in E. destruct (new_line_num st); [discriminate |].
      injection E as <-. rewrite (bind_pair _ _ _ _ E1). exact IH. }
    destruct (is_deletion line) eqn:Hd.
    { destruct (body_counted lines st line false Hl Hf Hh Hd Ha Hok)
        as (fs' & E1 & _ & E2).
      rewrite E2 in E. destruct (old_line_num st); [discriminate |].
      injection E as <-. rewrite (bind_pair _ _ _ _ E1). exact IH. }
    rewrite (body_plain lines st line Hl Hf Hh Ha Hd) in E.
    injection E as <-. exact IH.
Qed.

End SecondPass.

(** X3: where the full analysis succeeds, every count it reports is
    twice the number of lines: the second pass counts again every line
    that the first pass has counted, into the same dictionary. *)
Theorem counts_are_doubled (lines : list string)
    (fs : gmap (option string) (gmap string value)) :
  classify lines = Ok fs ->
  forall f, fs !! f =
    entry_of (2 * tally is_addition f lines) (2 * tally is_deletion f lines).
Proof.
  unfold classify. intros H.
  destruct (count_pass_exact lines [] _ _ ∅ exact_empty) as (fs1 & E1 & H1).
  change (owner []) with (@None string) in E1. rewrite E1 in H.
  cbn [mbind result_bind] in H.
  destruct (scan _ _ _) as [st|] eqn:E2; cbn [mbind result_bind] in H;
    [| discriminate].
  injection H as <-.
  apply (scan_counts _ _ (initial fs1)) in E2;
    [| exact (exact_fs_ok _ _ _ H1) | simpl; lia].
  destruct (count_pass_exact lines [] _ _ fs1 H1) as (fs2 & E3 & H2).
  change (owner []) with (@None string) in E3.
  change (count_pass lines fs1 None = Ok (file_stats st)) in E2.
  rewrite E3 in E2. injection E2 as <-.
  intros f. rewrite (H2 f). unfold tally. f_equal; lia.
Qed.

Lemma counts_are_doubled_witness :
  ({[ Some "f.py" := counters 2 0 2 ]}
     : gmap (option string) (gmap string value)) !! Some "f.py" =
  entry_of (2 * tally is_addition (Some "f.py")
                  ["diff --git a/f.py b/f.py"; "+x"])
           (2 * tally is_deletion (Some "f.py")
                  ["diff --git a/f.py b/f.py"; "+x"]).
Proof.
  apply (counts_are_doubled ["diff --git a/f.py b/f.py"; "+x"]).
  vm_compute. reflexivity.
Defined.

Section Outcome.

Implicit Types fs : gmap (option string) (gmap string value).

Lemma counted_not_header (line : string) :
  is_counted line = true ->
  PyStr.startswith line "diff --git" = false /\
  PyStr.startswith line "@@" = false.
Proof.
  unfold is_counted, is_addition, is_deletion. intros H.
  apply orb_true_iff in H as [H | H];
    apply andb_true_iff in H as [H _];
    apply startswith_first in H as [r ->]; split; reflexivity.
Qed.

Lemma context_plain (line : string) :
  is_context line = true ->
  PyStr.startswith line "diff --git" = false /\
  PyStr.startswith line "@@" = false /\
  is_addition line = false /\ is_deletion line = false.
Proof.
  unfold is_context, is_addition, is_deletion. intros H.
  apply andb_true_iff in H as [H H4]. apply andb_true_iff in H as [H H3].
  apply andb_true_iff in H as [H1 H2].
  apply negb_true_iff in H1, H2, H3, H4. rewrite H1, H2, H4.
  repeat split.
  destruct (PyStr.startswith line "diff --git") eqn:E; [| reflexivity].
  apply (startswith_prefix line "diff" " --git") in E. congruence.
Qed.

(** A counted line met while both cursors are set raises. *)
Lemma body_counted_set (lines : list string) (st : state) (line : string) :
  lines !! i st = Some line -> is_counted line = true ->
  fs_ok (file_stats st) ->
  is_Some (old_line_num st) -> is_Some (new_line_num st) ->
  body lines st = Raise (KeyError "line_changes").
Proof.
  intros Hl Hc Hok [o Ho] [n Hn].
  destruct (counted_not_header line Hc) as [Hf Hh].
  destruct (is_addition line) eqn:Ha.
  - destruct (body_counted lines st line true Hl Hf Hh Ha Ha Hok)
      as (fs' & _ & _ & E). now rewrite E, Hn.
  - unfold is_counted in Hc. rewrite Ha in Hc. simpl in Hc.
    destruct (body_counted lines st line false Hl Hf Hh Hc Ha Hok)
      as (fs' & _ & _ & E). now rewrite E, Ho.
Qed.

(** The cursors, once set, stay set. *)
Lemma body_keeps_set (lines : list string) (st st' : state) :
  fs_ok (file_stats st) -> body lines st = Ok st' ->
  is_Some (old_line_num st) -> is_Some (new_line_num st) ->
  is_Some (old_line_num st') /\ is_Some (new_line_num st').
Proof.
  intros Hok H Ho Hn.
  destruct (lines !! i st) as [line|] eqn:Hl;
    [| unfold body, index in H; rewrite Hl in H; discriminate].
  destruct (PyStr.startswith line "diff --git") eqn:Hf.
  { destruct (body_file_header lines st line Hl Hf) as (f & _ & E).
    rewrite E in H. injection H as <-. now split. }
  destruct (PyStr.startswith line "@@") eqn:Hh.
  { rewrite (body_hunk_header lines st line Hl Hh) in H.
    destruct (hunk_starts line) as [[o n]|]; cbn [mbind result_bind] in H;
      [| discriminate].
    injection H as <-. split; eexists; reflexivity. }
  destruct (is_counted line) eqn:Hc.
  { rewrite (body_counted_set lines st line Hl Hc Hok Ho Hn) in H.
    discriminate. }
  apply orb_false_iff in Hc as [Ha Hd].
  rewrite (body_plain lines st line Hl Hf Hh Ha Hd) in H. injection H as <-.
  destruct Ho as [o ->], Hn as [n ->]. cbn.
  destruct (is_context line); split; eexists; reflexivity.
Qed.

Lemma scan_set_raises (lines : list string) (k : nat) (l : string) :
  lines !! k = Some l -> is_counted l = true ->
  forall (fuel : nat) (st : state),
    fs_ok (file_stats st) ->
    is_Some (old_line_num st) -> is_Some (new_line_num st) ->
    (i st <= k)%nat -> (k < i st + fuel)%nat ->
    exists e, scan fuel lines st = Raise e.
Proof.
  intros Hl Hc. pose proof (lookup_lt_Some _ _ _ Hl) as Hk.
  induction fuel as [|fuel IH]; intros st Hok Ho Hn H1 H2; [lia |].
  rewrite scan_step by lia.
  destruct (decide (i st = k)) as [Hi | Hi].
  - rewrite (body_counted_set lines st l) by (rewrite ?Hi; assumption).
    cbn [mbind result_bind]. eauto.
  - destruct (body lines st) as [st1|e1] eqn:E; cbn [mbind result_bind];
      [| eauto].
    destruct (body_ok lines st st1 Hok E) as [Hok1 Hi1].
    destruct (body_keeps_set lines st st1 Hok E Ho Hn) as [Ho1 Hn1].
    apply IH; (assumption || lia).
Qed.

Lemma scan_hunk_then_change (lines : list string) (j k : nat) (h l : string) :
  (j < k)%nat ->
  lines !! j = Some h -> PyStr.startswith h "@@" = true ->
  lines !! k = Some l -> is_counted l = true ->
  forall (fuel : nat) (st : state),
    fs_ok (file_stats st) -> (i st <= j)%nat -> (k < i st + fuel)%nat ->
    exists e, scan fuel lines st = Raise e.
Proof.
  intros Hjk Hh Hhh Hl Hc. pose proof (lookup_lt_Some _ _ _ Hl) as Hk.
  induction fuel as [|fuel IH]; intros st Hok H1 H2; [lia |].
  rewrite scan_step by lia.
  destruct (body lines st) as [st1|e1] eqn:E; cbn [mbind result_bind];
    [| eauto].
  destruct (body_ok lines st st1 Hok E) as [Hok1 Hi1].
  destruct (decide (i st = j)) as [Hi | Hi].
  - rewrite (body_hunk_header lines st h) in E by (rewrite ?Hi; assumption).
    destruct (hunk_starts h) as [[o n]|]; cbn [mbind result_bind] in E;
      [| discriminate].
    apply (scan_set_raises lines k l Hl Hc); try assumption;
      try lia; injection E as <-; eexists; reflexivity.
  - apply IH; (assumption || lia).
Qed.

(** The two places where an iteration raises. *)
Lemma body_raise (lines : list string) (st : state) (line : string)
    (e : exn) :
  fs_ok (file_stats st) -> lines !! i st = Some line ->
  body lines st = Raise e ->
  (PyStr.startswith line "@@" = true /\ hunk_starts line = Raise e) \/
  (e = KeyError "line_changes" /\ is_counted line = true /\
   (is_Some (old_line_num st) \/ is_Some (new_line_num st))).
Proof.
  intros Hok Hl H.
  destruct (PyStr.startswith line "diff --git") eqn:Hf.
  { destruct (body_file_header lines st line Hl Hf) as (f & _ & E).
    rewrite E in H. discriminate. }
  destruct (PyStr.startswith line "@@") eqn:Hh.
  { rewrite (body_hunk_header lines st line Hl Hh) in H.
    destruct (hunk_starts line) as [[o n]|e0]; cbn [mbind result_bind] in H;
      [discriminate |].
    injection H as <-. now left. }
  destruct (is_addition line) eqn:Ha.
  { destruct (body_counted lines st line true Hl Hf Hh Ha Ha Hok)
      as (fs' & _ & _ & E).
    rewrite E in H. destruct (new_line_num st) eqn:En; [| discriminate].
    injection H as <-. right. unfold is_counted. rewrite Ha.
    repeat split. right. eauto. }
  destruct (is_deletion line) eqn:Hd.
  { destruct (body_counted lines st line false Hl Hf Hh Hd Ha Hok)
      as (fs' & _ & _ & E).
    rewrite E in H. destruct (old_line_num st) eqn:En; [| discriminate].
    injection H as <-. right. unfold is_counted. rewrite Ha, Hd.
    repeat split. left. eauto. }
  rewrite (body_plain lines st line Hl Hf Hh Ha Hd) in H. discriminate.
Qed.

Lemma scan_raise (fuel : nat) (lines : list string) (st : state) (e : exn) :
  fs_ok (file_stats st) -> scan fuel lines st = Raise e ->
  (exists k h, lines !! k = Some h /\ PyStr.startswith h "@@" = true /\
     hunk_starts h = Raise e) \/
  e = KeyError "line_changes".
Proof.
  revert st. induction fuel as [|fuel IH]; intros st Hok H.
  - simpl in H. destruct (_ <? _)%nat; discriminate.
  - destruct (Nat.ltb_spec (i st) (length lines)) as [Hlt | Hge];
      [| rewrite scan_past in H by lia; discriminate].
    rewrite scan_step in H by exact Hlt.
    destruct (body lines st) as [st1|e1] eqn:E; cbn [mbind result_bind] in H.
    + destruct (body_ok lines st st1 Hok E) as [Hok1 _]. eauto.
    + injection H as <-.
      destruct (lookup_lt_is_Some_2 lines (i st) Hlt) as [line Hl].
      destruct (body_raise lines st line e1 Hok Hl E) as [[Hh He] | [-> _]];
        [left; eauto | now right].
Qed.

(** With every hunk header parsing and no change after a hunk header,
    the scan goes through. *)
Lemma scan_clean (lines : list string) :
  hunks_parse lines -> no_change_after_hunk lines ->
  forall (fuel : nat) (st : state),
    fs_ok (file_stats st) ->
    (old_line_num st = None /\ new_line_num st = None) \/
    (exists j h, (j < i st)%nat /\ lines !! j = Some h /\
       PyStr.startswith h "@@" = true) ->
    exists st', scan fuel lines st = Ok st'.
Proof.
  intros Hp Hn. induction fuel as [|fuel IH]; intros st Hok Hinv.
  - exists st. simpl. now destruct (_ <? _)%nat.
  - destruct (Nat.ltb_spec (i st) (length lines)) as [Hlt | Hge];
      [| exists st; now rewrite scan_past by lia].
    rewrite scan_step by exact Hlt.
    destruct (lookup_lt_is_Some_2 lines (i st) Hlt) as [line Hl].
    assert (Hnext : forall st1, body lines st = Ok st1 ->
              (old_line_num st1 = None /\ new_line_num st1 = None) \/
              (exists j h, (j < i st1)%nat /\ lines !! j = Some h /\
                 PyStr.startswith h "@@" = true) ->
              exists st', body lines st ≫= scan fuel lines = Ok st').
    { intros st1 E Hinv1. rewrite E. cbn [mbind result_bind].
      destruct (body_ok lines st st1 Hok E) as [Hok1 _]. now apply IH. }
    destruct (PyStr.startswith line "diff --git") eqn:Hf.
    { destruct (body_file_header lines st line Hl Hf) as (f & _ & E).
      apply (Hnext _ E). cbn.
      destruct Hinv as [Hinv | (j & h & Hj & Hh)]; [now left |].
      right. exists j, h. split; [lia | assumption]. }
    destruct (PyStr.startswith line "@@") eqn:Hh.
    { destruct (Hp _ _ Hl Hh) as [[o n] Hs].
      pose proof (body_hunk_header lines st line Hl Hh) as E.
      rewrite Hs in E. cbn [mbind result_bind] in E.
      apply (Hnext _ E). cbn. right. exists (i st), line.
      split; [lia | now split]. }
    destruct (is_counted line) eqn:Hc.
    { destruct Hinv as [[Ho Hn'] | (j & h & Hj & Hjh & Hhh)].
      2:{ rewrite (Hn j (i st) h line Hj Hjh Hhh Hl) in Hc. discriminate. }
      destruct (is_addition line) eqn:Ha.
      - destruct (body_counted lines st line true Hl Hf Hh Ha Ha Hok)
          as (fs' & _ & _ & E).
        rewrite Hn' in E. apply (Hnext _ E). cbn. left. now split.
      - unfold is_counted in Hc. rewrite Ha in Hc. simpl in Hc.
        destruct (body_counted lines st line false Hl Hf Hh Hc Ha Hok)
          as (fs' & _ & _ & E).
        rewrite Ho in E. apply (Hnext _ E). cbn. left. now split. }
    apply orb_false_iff in Hc as [Ha Hd].
    pose proof (body_plain lines st line Hl Hf Hh Ha Hd) as E.
    apply (Hnext _ E). cbn.
    destruct Hinv as [[-> ->] | (j & h & Hj & Hh')].
    + left. destruct (is_context line); now split.
    + right. exists j, h. split; [lia | assumption].
Qed.

End Outcome.

(** X4: the full analysis fails on every diff in which an addition or a
    deletion comes after a hunk header; when the hunk headers parse, the
    exception is the [KeyError] of the missing ["line_changes"] list. *)
Theorem change_after_hunk_fails (lines : list string) (j k : nat)
    (h l : string) :
  (j < k)%nat ->
  lines !! j = Some h -> PyStr.startswith h "@@" = true ->
  lines !! k = Some l -> is_counted l = true ->
  (exists e, classify lines = Raise e) /\
  (hunks_parse lines -> classify lines = Raise (KeyError "line_changes")) /\
  (forall names stat diff, PyStr.split nl diff = lines ->
     exists e, analyze_commit_changes names stat diff = Raise e).
Proof.
  intros Hjk Hh Hhh Hl Hc. pose proof (lookup_lt_Some _ _ _ Hl) as Hk.
  destruct (count_pass_exact lines [] _ _ ∅ exact_empty) as (fs1 & E1 & H1).
  change (owner []) with (@None string) in E1.
  pose proof (exact_fs_ok _ _ _ H1) as Hok.
  destruct (scan_hunk_then_change lines j k h l Hjk Hh Hhh Hl Hc
              (length lines) (initial fs1) Hok) as [e E]; simpl; [lia | lia |].
  assert (Hc' : classify lines = Raise e).
  { unfold classify. rewrite E1. cbn [mbind result_bind]. now rewrite E. }
  split; [eauto |]. split.
  - intros Hp. rewrite Hc'. f_equal.
    destruct (scan_raise _ _ (initial fs1) e Hok E)
      as [(k' & h' & Hk' & Hh' & He) | ->]; [| reflexivity].
    destruct (Hp k' h' Hk' Hh') as [p Hs]. congruence.
  - intros names stat diff <-. exists e.
    unfold analyze_commit_changes. now rewrite Hc'.
Qed.

Lemma change_after_hunk_fails_witness :
  classify ["diff --git a/f.py b/f.py"; "--- a/f.py"; "+++ b/f.py";
            "@@ -1 +1 @@"; "-x = 1"; "+x = 2"]
    = Raise (KeyError "line_changes").
Proof.
  apply (change_after_hunk_fails
           ["diff --git a/f.py b/f.py"; "--- a/f.py"; "+++ b/f.py";
            "@@ -1 +1 @@"; "-x = 1"; "+x = 2"] 3 4 "@@ -1 +1 @@" "-x = 1");
    try reflexivity; [lia |].
  intros k h Hk Hh.
  destruct k as [|[|[|[|[|[|k]]]]]]; simpl in Hk; try discriminate;
    injection Hk as <-; try discriminate Hh.
  eexists. reflexivity.
Defined.

(** X5: the full analysis returns a result exactly on the diffs in which
    every hunk header parses and no addition or deletion comes after a
    hunk header. *)
Theorem classify_succeeds_iff (lines : list string) :
  (exists fs, classify lines = Ok fs) <->
  hunks_parse lines /\ no_change_after_hunk lines.
Proof.
  destruct (count_pass_exact lines [] _ _ ∅ exact_empty) as (fs1 & E1 & H1).
  change (owner []) with (@None string) in E1.
  pose proof (exact_fs_ok _ _ _ H1) as Hok.
  unfold classify. rewrite E1. cbn [mbind result_bind]. split.
  - intros [fs H].
    destruct (scan (length lines) lines (initial fs1)) as [st|] eqn:E;
      cbn [mbind result_bind] in H; [clear H | discriminate].
    split.
    + intros k h Hk Hh.
      destruct (hunk_starts h) as [p|e] eqn:Hs; [eauto |].
      pose proof (lookup_lt_Some _ _ _ Hk).
      destruct (scan_reaches lines k h e Hk Hh Hs (length lines)
                  (initial fs1) Hok) as (e' & E' & _); simpl; [lia | lia |].
      congruence.
    + intros j k h l Hjk Hj Hh Hk.
      destruct (is_counted l) eqn:Hc; [| reflexivity].
      pose proof (lookup_lt_Some _ _ _ Hk).
      destruct (scan_hunk_then_change lines j k h l Hjk Hj Hh Hk Hc
                  (length lines) (initial fs1) Hok) as [e' E'];
        simpl; [lia | lia |].
      congruence.
  - intros [Hp Hn].
    destruct (scan_clean lines Hp Hn (length lines) (initial fs1) Hok)
      as [st E]; [left; now split |].
    rewrite E. cbn [mbind result_bind]. eauto.
Qed.

(** X6: the full analysis raises nothing but the [KeyError] of the
    missing ["line_changes"] list and the exception of a hunk header of
    the diff that does not parse, an [IndexError] or the [ValueError] of
    [int]. *)
Theorem classify_exceptions (lines : list string) (e : exn) :
  classify lines = Raise e ->
  e = KeyError "line_changes" \/
  exists k h, lines !! k = Some h /\ PyStr.startswith h "@@" = true /\
    hunk_starts h = Raise e /\
    (e = IndexError \/
     exists tok, e = ValueError tok /\ PyStr.int tok = None).
Proof.
  destruct (count_pass_exact lines [] _ _ ∅ exact_empty) as (fs1 & E1 & H1).
  change (owner []) with (@None string) in E1.
  pose proof (exact_fs_ok _ _ _ H1) as Hok.
  unfold classify. rewrite E1. cbn [mbind result_bind]. intros H.
  destruct (scan (length lines) lines (initial fs1)) as [st|e1] eqn:E;
    cbn [mbind result_bind] in H; [discriminate |].
  injection H as <-.
  destruct (scan_raise _ _ (initial fs1) e1 Hok E)
    as [(k & h & Hk & Hh & He) | ->]; [| now left].
  right. exists k, h. repeat split; try assumption.
  exact (hunk_starts_raise h e1 He).
Qed.

Lemma classify_exceptions_witness :
  ValueError "+x" = KeyError "line_changes" \/
  exists k h, ["@@ -1 +x @@"] !! k = Some h /\
    PyStr.startswith h "@@" = true /\
    hunk_starts h = Raise (ValueError "+x") /\
    (ValueError "+x" = IndexError \/
     exists tok, ValueError "+x" = ValueError tok /\ PyStr.int tok = None).
Proof.
  apply (classify_exceptions ["@@ -1 +x @@"] (ValueError "+x")).
  reflexivity.
Defined.

(** X7: a run of context lines advances both cursors by its length when
    they are set, and leaves them unset otherwise; it raises nothing and
    changes neither the counts nor the current file. *)
Theorem context_run_advances (lines : list string) (m : nat) (st : state) :
  (forall j, (i st <= j < i st + m)%nat ->
     exists l, lines !! j = Some l /\ is_context l = true) ->
  exists st',
    scan m lines st = Ok st' /\
    old_line_num st' = (fun n => n + Z.of_nat m) <$> old_line_num st /\
    new_line_num st' = (fun n => n + Z.of_nat m) <$> new_line_num st /\
    file_stats st' = file_stats st /\ current_file st' = current_file st /\
    i st' = (i st + m)%nat.
Proof.
  revert st. induction m as [|m IH]; intros st H.
  - exists st. split; [simpl; now destruct (_ <? _)%nat |].
    destruct (old_line_num st), (new_line_num st); simpl;
      rewrite ?Z.add_0_r, Nat.add_0_r; repeat split.
  - destruct (H (i st) ltac:(lia)) as (l & Hl & Hc).
    pose proof (lookup_lt_Some _ _ _ Hl) as Hlt.
    destruct (context_plain l Hc) as (Hf & Hh & Ha & Hd).
    rewrite scan_step by exact Hlt.
    rewrite (body_plain lines st l Hl Hf Hh Ha Hd), Hc.
    cbn [mbind result_bind].
    match goal with |- context [scan m lines ?s] => set (st1 := s) end.
    destruct (IH st1) as (st' & E & Ho & Hn & Hfs & Hcf & Hi).
    { intros j Hj. apply H. subst st1. simpl in Hj. lia. }
    exists st'. split; [exact E |].
    rewrite Ho, Hn, Hfs, Hcf, Hi. subst st1. cbn.
    destruct (old_line_num st), (new_line_num st); simpl;
      repeat split; try lia; f_equal; lia.
Qed.

Lemma context_run_advances_witness :
  exists st',
    scan 2 ["@@ -5 +7 @@"; " a = 1"; " b = 2"; "+c = 3"]
      (State ∅ None None None (Some 5) (Some 7) 1) = Ok st' /\
    old_line_num st' = Some 7 /\ new_line_num st' = Some 9.
Proof.
  destruct (context_run_advances
              ["@@ -5 +7 @@"; " a = 1"; " b = 2"; "+c = 3"] 2
              (State ∅ None None None (Some 5) (Some 7) 1))
    as (st' & E & Ho & Hn & _).
  - intros j Hj. simpl in Hj.
    destruct (decide (j = 1%nat)) as [-> | ?]; [eexists; split; reflexivity |].
    assert (j = 2%nat) as -> by lia. eexists; split; reflexivity.
  - exists st'. split; [exact E |]. split; assumption.
Defined.

(** ** The names of classes and methods *)

Section Names.

Local Arguments String.append : simpl nomatch.

Lemma lstrip_by_none (sp : ascii -> bool) (s : string) :
  none_of sp s = true -> PyStr.lstrip_by sp s = s.
Proof.
  destruct s as [|x s]; simpl; [reflexivity |]. intros H.
  apply andb_true_iff in H as [H _]. apply negb_true_iff in H.
  now rewrite H.
Qed.

Lemma strip_none (s : string) :
  none_of PyStr.isspace s = true -> PyStr.strip s = s.
Proof.
  intros H. unfold PyStr.strip.
  now rewrite lstrip_by_none, rstrip_by_none.
Qed.

(** The first piece keeps a prefix in which the separator cannot start. *)
Lemma split_head_none_of (x : ascii) (sep a b : string) :
  none_of (Ascii.eqb x) a = true ->
  exists r ps, PyStr.split (String x sep) (a +:+ b) = (a +:+ r) :: ps.
Proof.
  induction a as [|y a IH]; intros H.
  - pose proof (split_not_nil (String x sep) b).
    destruct (PyStr.split (String x sep) b) as [|p ps] eqn:E; [congruence |].
    exists p, ps. exact E.
  - change (String y a +:+ b) with (String y (a +:+ b)).
    rewrite split_cons.
    + simpl in H. apply andb_true_iff in H as [_ H].
      destruct (IH H) as (r & ps & ->). now exists r, ps.
    + change (String y (a +:+ b)) with (String y a +:+ b).
      apply startswith_none_of; [exact H | discriminate].
Qed.

Lemma not_space (name : string) :
  none_of PyStr.isspace name = true ->
  none_of (Ascii.eqb " ") name = true.
Proof.
  induction name as [|c name IH]; cbn [none_of]; [reflexivity |]. intros H.
  apply andb_true_iff in H as [Hc H]. rewrite (IH H), andb_true_r.
  destruct (Ascii.eqb_spec " " c) as [<- | _];
    [vm_compute in Hc; discriminate | reflexivity].
Qed.

(** [def ] ends with a space: it cannot start inside a name that is
    followed by a parenthesis. *)
Lemma def_not_in_name (c : ascii) (n rest : string) :
  none_of (Ascii.eqb " ") (String c n) = true ->
  PyStr.startswith (String c n +:+ "(" +:+ rest) "def " = false.
Proof.
  intros H.
  destruct (PyStr.startswith _ _) eqn:E; [exfalso | reflexivity].
  apply startswith_inv in E as [r E].
  destruct n as [|c1 [|c2 [|c3 n]]]; simpl in E; try discriminate E.
  injection E as -> -> -> -> _. vm_compute in H. discriminate.
Qed.

Lemma class_not_in_name (c t : ascii) (n rest : string) :
  none_of (Ascii.eqb " ") (String c n) = true ->
  t = "("%char \/ t = ":"%char ->
  PyStr.startswith (String c n +:+ String t rest) "class " = false.
Proof.
  intros H Ht.
  destruct (PyStr.startswith _ _) eqn:E; [exfalso | reflexivity].
  apply startswith_inv in E as [r E].
  destruct Ht as [-> | ->];
    (destruct n as [|c1 [|c2 [|c3 [|c4 [|c5 n]]]]]; simpl in E;
     try discriminate E;
     injection E as -> -> -> -> -> -> _; vm_compute in H; discriminate).
Qed.

Lemma split_head_def (name rest : string) :
  none_of (Ascii.eqb " ") name = true ->
  exists r ps,
    PyStr.split "def " (name +:+ "(" +:+ rest) = (name +:+ "(" +:+ r) :: ps.
Proof.
  induction name as [|c name IH]; intros H.
  - apply (split_head_none_of "d" "ef " "(" rest). reflexivity.
  - change (String c name +:+ "(" +:+ rest)
      with (String c (name +:+ "(" +:+ rest)).
    rewrite split_cons.
    + simpl in H. apply andb_true_iff in H as [_ H].
      destruct (IH H) as (r & ps & ->). now exists r, ps.
    + change (String c (name +:+ "(" +:+ rest))
        with (String c name +:+ "(" +:+ rest).
      now apply def_not_in_name.
Qed.

Lemma split_head_class (name : string) (t : ascii) (rest : string) :
  none_of (Ascii.eqb " ") name = true ->
  t = "("%char \/ t = ":"%char ->
  exists r ps,
    PyStr.split "class " (name +:+ String t rest)
    = (name +:+ String t r) :: ps.
Proof.
  intros H Ht. induction name as [|c name IH].
  - destruct (split_head_none_of "c" "lass " (String t "") rest)
      as (r & ps & E); [destruct Ht as [-> | ->]; reflexivity |].
    exists r, ps. exact E.
  - change (String c name +:+ String t rest)
      with (String c (name +:+ String t rest)).
    rewrite split_cons.
    + simpl in H. apply andb_true_iff in H as [_ H].
      destruct (IH H) as (r & ps & ->). now exists r, ps.
    + change (String c (name +:+ String t rest))
        with (String c name +:+ String t rest).
      now apply class_not_in_name.
Qed.

Lemma method_match_of_shape (pre name rest : string) :
  none_of (Ascii.eqb "d") pre = true ->
  none_of PyStr.isspace name = true ->
  none_of (Ascii.eqb "(") name = true ->
  method_match_of (pre +:+ "def " +:+ name +:+ "(" +:+ rest) = Ok name.
Proof.
  intros Hpre Hsp Hpar. unfold method_match_of.
  rewrite (split_none_of_app "d" "ef " pre) by exact Hpre.
  destruct (split_head_def name rest (not_space name Hsp)) as (r & ps & ->).
  cbn [index lookup list_lookup mbind result_bind].
  rewrite (split_none_of_app "(" "" name r) by exact Hpar.
  cbn [index lookup list_lookup mbind result_bind].
  now rewrite strip_none.
Qed.

Lemma class_match_of_shape (pre name : string) (t : ascii) (rest : string) :
  none_of (Ascii.eqb "c") pre = true ->
  none_of PyStr.isspace name = true ->
  none_of (Ascii.eqb "(") name = true ->
  none_of (Ascii.eqb ":") name = true ->
  t = "("%char \/ t = ":"%char ->
  class_match_of (pre +:+ "class " +:+ name +:+ String t rest) = Ok name.
Proof.
  intros Hpre Hsp Hpar Hcol Ht. unfold class_match_of.
  rewrite (split_none_of_app "c" "lass " pre) by exact Hpre.
  destruct (split_head_class name t rest (not_space name Hsp) Ht)
    as (r & ps & ->).
  cbn [index lookup list_lookup mbind result_bind].
  destruct Ht as [-> | ->].
  - change (name +:+ String "(" r) with (name +:+ "(" +:+ r).
    rewrite (split_none_of_app "(" "" name r) by exact Hpar.
    cbn [index lookup list_lookup mbind result_bind].
    rewrite split_none_of by exact Hcol.
    cbn [index lookup list_lookup mbind result_bind].
    now rewrite strip_none.
  - destruct (split_head_none_of "(" "" (name +:+ ":") r) as (r' & ps' & E).
    { rewrite none_of_app, Hpar. reflexivity. }
    change (name +:+ String ":" r) with (name +:+ ":" +:+ r).
    rewrite <- app_assoc_s, E, app_assoc_s.
    cbn [index lookup list_lookup mbind result_bind].
    rewrite (split_none_of_app ":" "" name r') by exact Hcol.
    cbn [index lookup list_lookup mbind result_bind].
    now rewrite strip_none.
Qed.

End Names.

(** X8: a context line [<pre>class <name>(...] or [<pre>class <name>:...]
    that contains a colon sets the current class to [<name>], for every
    name without white space, parenthesis or colon and every [<pre>]
    without the letter [c]; the counts, the file and the method are kept
    unless the line also holds a definition. *)
Theorem class_line_sets_class (lines : list string) (st : state)
    (pre name : string) (t : ascii) (rest : string) :
  lines !! i st = Some (pre +:+ "class " +:+ name +:+ String t rest) ->
  is_context (pre +:+ "class " +:+ name +:+ String t rest) = true ->
  PyStr.contains ":" (pre +:+ "class " +:+ name +:+ String t rest) = true ->
  none_of (Ascii.eqb "c") pre = true ->
  none_of PyStr.isspace name = true ->
  none_of (Ascii.eqb "(") name = true ->
  none_of (Ascii.eqb ":") name = true ->
  t = "("%char \/ t = ":"%char ->
  class_match_of (pre +:+ "class " +:+ name +:+ String t rest) = Ok name /\
  exists st',
    body lines st = Ok st' /\ current_class st' = Some name /\
    file_stats st' = file_stats st /\ current_file st' = current_file st.
Proof.
  intros Hl Hc Hcol Hpre Hsp Hpar Hcn Ht.
  pose proof (class_match_of_shape pre name t rest Hpre Hsp Hpar Hcn Ht) as E.
  split; [exact E |].
  destruct (context_plain _ Hc) as (Hf & Hh & Ha & Hd).
  eexists. split; [apply (body_plain lines st _ Hl Hf Hh Ha Hd) |].
  cbn [current_class file_stats current_file].
  assert (Hhas : has_class (pre +:+ "class " +:+ name +:+ String t rest) = true).
  { unfold has_class. now rewrite contains_app, Hcol. }
  rewrite Hc, Hhas. cbn [andb]. unfold class_name. rewrite E.
  repeat split.
Qed.

Lemma class_line_sets_class_witness :
  class_match_of " class Foo(Base):" = Ok "Foo" /\
  exists st',
    body [" class Foo(Base):"] (initial ∅) = Ok st' /\
    current_class st' = Some "Foo" /\
    file_stats st' = ∅ /\ current_file st' = None.
Proof.
  apply (class_line_sets_class [" class Foo(Base):"] (initial ∅)
           " " "Foo" "(" "Base):"); try reflexivity.
  now left.
Defined.

(** X9: a context line [<pre>def <name>(...] that contains a colon sets
    the current method to [<name>], for every name without white space or
    parenthesis and every [<pre>] without the letter [d]. *)
Theorem def_line_sets_method (lines : list string) (st : state)
    (pre name rest : string) :
  lines !! i st = Some (pre +:+ "def " +:+ name +:+ "(" +:+ rest) ->
  is_context (pre +:+ "def " +:+ name +:+ "(" +:+ rest) = true ->
  PyStr.contains ":" (pre +:+ "def " +:+ name +:+ "(" +:+ rest) = true ->
  none_of (Ascii.eqb "d") pre = true ->
  none_of PyStr.isspace name = true ->
  none_of (Ascii.eqb "(") name = true ->
  method_match_of (pre +:+ "def " +:+ name +:+ "(" +:+ rest) = Ok name /\
  exists st',
    body lines st = Ok st' /\ current_method st' = Some name /\
    file_stats st' = file_stats st /\ current_file st' = current_file st.
Proof.
  intros Hl Hc Hcol Hpre Hsp Hpar.
  pose proof (method_match_of_shape pre name rest Hpre Hsp Hpar) as E.
  split; [exact E |].
  destruct (context_plain _ Hc) as (Hf & Hh & Ha & Hd).
  eexists. split; [apply (body_plain lines st _ Hl Hf Hh Ha Hd) |].
  cbn [current_method file_stats current_file].
  assert (Hhas : has_def (pre +:+ "def " +:+ name +:+ "(" +:+ rest) = true).
  { unfold has_def. now rewrite contains_app, Hcol. }
  rewrite Hc, Hhas. cbn [andb]. unfold method_name. rewrite E.
  repeat split.
Qed.

Lemma def_line_sets_method_witness :
  method_match_of "     def add(self, x):" = Ok "add" /\
  exists st',
    body ["     def add(self, x):"] (initial ∅) = Ok st' /\
    current_method st' = Some "add" /\
    file_stats st' = ∅ /\ current_file st' = None.
Proof.
  apply (def_line_sets_method ["     def add(self, x):"] (initial ∅)
           "     " "add" "self, x):"); reflexivity.
Defined.

(** ** Splitting at one character *)

Section SplitChar.

Local Arguments String.append : simpl nomatch.

Lemma startswith_char (c x : ascii) (s : string) :
  PyStr.startswith (String c s) (String x "") = Ascii.eqb c x.
Proof. cbn [PyStr.startswith]. now destruct (Ascii.eqb c x). Qed.

Lemma split_char_here (x : ascii) (s : string) :
  PyStr.split (String x "") (String x s) = "" :: PyStr.split (String x "") s.
Proof. apply (split_sep (String x "") s). discriminate. Qed.

(** The pieces of a concatenation at a separator character. *)
Lemma split_char_app (x : ascii) (a b : string) :
  PyStr.split (String x "") (a +:+ String x b) =
    PyStr.split (String x "") a ++ PyStr.split (String x "") b.
Proof.
  induction a as [|y a IH].
  - change ("" +:+ String x b) with (String x b).
    now rewrite split_char_here.
  - change (String y a +:+ String x b) with (String y (a +:+ String x b)).
    destruct (Ascii.eqb_spec y x) as [-> | Hne].
    + now rewrite !split_char_here, IH.
    + rewrite !split_cons
        by (rewrite startswith_char; now apply Ascii.eqb_neq).
      rewrite IH. pose proof (split_not_nil (String x "") a).
      now destruct (PyStr.split (String x "") a).
Qed.

Lemma split_char_app_sep (x : ascii) (a b : string) :
  PyStr.split (String x "") (a +:+ String x "" +:+ b) =
    PyStr.split (String x "") a ++ PyStr.split (String x "") b.
Proof. exact (split_char_app x a b). Qed.

Lemma split_char_length (x : ascii) (s : string) :
  length (PyStr.split (String x "") s) = S (count_char x s).
Proof.
  induction s as [|c s IH]; [reflexivity |]. cbn [count_char].
  destruct (Ascii.eqb_spec c x) as [-> | Hne].
  - rewrite split_char_here. simpl. now rewrite IH.
  - rewrite split_cons by (rewrite startswith_char; now apply Ascii.eqb_neq).
    pose proof (split_not_nil (String x "") s).
    destruct (PyStr.split (String x "") s); [congruence |].
    simpl in *. lia.
Qed.

Lemma count_char_none (x : ascii) (s : string) :
  count_char x s = O <-> none_of (Ascii.eqb x) s = true.
Proof.
  induction s as [|c s IH]; cbn [count_char none_of]; [tauto |].
  rewrite (Ascii.eqb_sym x c).
  destruct (Ascii.eqb c x); cbn [negb andb]; [split; [lia | discriminate] |].
  exact IH.
Qed.

(** No piece holds the separator character, and the first piece holds
    nothing that the string does not hold. *)
Lemma split_char_pieces (x : ascii) (s : string) :
  Forall (fun p => none_of (Ascii.eqb x) p = true)
    (PyStr.split (String x "") s).
Proof.
  induction s as [|c s IH]; [repeat constructor |].
  destruct (Ascii.eqb_spec c x) as [-> | Hne].
  - rewrite split_char_here. constructor; [reflexivity | exact IH].
  - rewrite split_cons by (rewrite startswith_char; now apply Ascii.eqb_neq).
    pose proof (split_not_nil (String x "") s).
    destruct (PyStr.split (String x "") s) as [|p ps]; [congruence |].
    inversion IH as [|? ? Hp Hps]; subst. constructor; [| exact Hps].
    cbn [none_of]. rewrite Hp, andb_true_r.
    apply negb_true_iff. apply Ascii.eqb_neq. congruence.
Qed.

Lemma split_char_head (x : ascii) (bad : ascii -> bool) (s : string) :
  none_of bad s = true ->
  exists p ps, PyStr.split (String x "") s = p :: ps /\
    none_of bad p = true.
Proof.
  induction s as [|c s IH]; intros H; [now exists "", [] |].
  cbn [none_of] in H. apply andb_true_iff in H as [Hc H].
  destruct (Ascii.eqb_spec c x) as [-> | Hne].
  - rewrite split_char_here. now exists "", (PyStr.split (String x "") s).
  - rewrite split_cons by (rewrite startswith_char; now apply Ascii.eqb_neq).
    destruct (IH H) as (p & ps & -> & Hp). exists (String c p), ps.
    split; [reflexivity |]. cbn [none_of]. now rewrite Hc, Hp.
Qed.

Lemma last_two_app (l : list string) (a b : string) :
  last_two (l ++ [a; b]) = [a; b].
Proof.
  unfold last_two. rewrite length_app. simpl.
  replace (length l + 2 - 2)%nat with (length l) by lia.
  now rewrite drop_app_length.
Qed.

End SplitChar.

Section Callers.

Local Arguments String.append : simpl nomatch.

Lemma lstrip_by_app (sp : ascii -> bool) (s t : string) :
  PyStr.lstrip_by sp (s +:+ t) =
    match PyStr.lstrip_by sp s with
    | EmptyString => PyStr.lstrip_by sp t
    | r => r +:+ t
    end.
Proof.
  induction s as [|c s IH]; [reflexivity |].
  change (String c s +:+ t) with (String c (s +:+ t)).
  cbn [PyStr.lstrip_by]. destruct (sp c); [exact IH | reflexivity].
Qed.

(** White space at the end does not survive [strip]. *)
Lemma strip_app_space (s : string) (c : ascii) :
  PyStr.isspace c = true ->
  PyStr.strip (s +:+ String c "") = PyStr.strip s.
Proof.
  intros Hc. unfold PyStr.strip. rewrite lstrip_by_app.
  destruct (PyStr.lstrip_by PyStr.isspace s) as [|y r] eqn:E.
  - cbn [PyStr.lstrip_by]. now rewrite Hc.
  - now rewrite rstrip_by_drop.
Qed.

(** Lines joined by newlines split into the same lines. *)
Lemma split_concat (names : list string) :
  names <> [] ->
  Forall (fun n => none_of (Ascii.eqb "010") n = true) names ->
  PyStr.split nl (String.concat nl names) = names.
Proof.
  intros Hne H. induction H as [|n rest Hn Hrest IH]; [congruence |].
  destruct rest as [|m rest].
  - cbn [String.concat]. apply (split_none_of "010" "" n Hn).
  - change (String.concat nl (n :: m :: rest))
      with (n +:+ nl +:+ String.concat nl (m :: rest)).
    unfold nl at 1 2.
    rewrite (split_none_of_app "010" "" n _ Hn).
    f_equal. apply IH. discriminate.
Qed.

End Callers.

(** X10: a URL [<base>/<owner>/<name>] yields the owner and the name of
    the repository, its last two pieces between slashes; the unpacking
    fails exactly for a URL without a slash. *)
Theorem repository_of_url (base repo_owner repo_name : string) :
  none_of (Ascii.eqb "/") repo_owner = true ->
  none_of (Ascii.eqb "/") repo_name = true ->
  owner_and_name (base +:+ "/" +:+ repo_owner +:+ "/" +:+ repo_name)
    = Some (repo_owner, repo_name) /\
  (forall url, owner_and_name url = None <->
     none_of (Ascii.eqb "/") url = true).
Proof.
  intros Ho Hn. split.
  - unfold owner_and_name.
    rewrite (split_char_app_sep "/" base).
    rewrite (split_none_of_app "/" "" repo_owner) by exact Ho.
    rewrite (split_none_of "/" "" repo_name) by exact Hn.
    now rewrite last_two_app.
  - intros url. rewrite <- count_char_none. unfold owner_and_name, last_two.
    pose proof (split_char_length "/" url) as Hlen.
    destruct (PyStr.split "/" url) as [|a [|b l]]; simpl in Hlen.
    + lia.
    + simpl. split; [lia | reflexivity].
    + assert (Hd : length (drop (length (a :: b :: l) - 2) (a :: b :: l)) = 2%nat)
        by (rewrite length_drop; simpl; lia).
      destruct (drop _ _) as [|x [|y [|z r]]]; simpl in Hd; try lia.
      split; [discriminate | lia].
Qed.

Lemma repository_of_url_witness :
  owner_and_name "https://github.com/django/django"
    = Some ("django", "django").
Proof.
  apply (repository_of_url "https://github.com" "django" "django");
    reflexivity.
Defined.

(** X11: the name under which a file is copied depends on nothing but
    the part of its last path component before the first dot: files of
    different directories or extensions with the same such part are
    copied to the same name. *)
Theorem vul_file_name_of_stem (stem ext : string) :
  none_of (Ascii.eqb "/") stem = true ->
  none_of (Ascii.eqb ".") stem = true ->
  none_of (Ascii.eqb "/") ext = true ->
  vul_file_name (stem +:+ "." +:+ ext) = Ok (stem +:+ "_vul.py") /\
  forall dir,
    vul_file_name (dir +:+ "/" +:+ stem +:+ "." +:+ ext)
      = Ok (stem +:+ "_vul.py").
Proof.
  intros Hs Hd He.
  assert (Hb : none_of (Ascii.eqb "/") (stem +:+ "." +:+ ext) = true).
  { rewrite !none_of_app, Hs, He. reflexivity. }
  assert (Hstem : index (PyStr.split "." (stem +:+ "." +:+ ext)) 0 = Ok stem).
  { now rewrite (split_none_of_app "." "" stem ext Hd). }
  split.
  - unfold vul_file_name. rewrite (split_none_of "/" "" _ Hb).
    cbn [index_last last mbind result_bind]. now rewrite Hstem.
  - intros dir. unfold vul_file_name.
    rewrite (split_char_app_sep "/" dir), (split_none_of "/" "" _ Hb).
    unfold index_last. rewrite last_snoc. cbn [mbind result_bind].
    now rewrite Hstem.
Qed.

Lemma vul_file_name_of_stem_witness :
  vul_file_name ("django/core" +:+ "/" +:+ "util" +:+ "." +:+ "py")
    = Ok "util_vul.py" /\
  vul_file_name ("django/db" +:+ "/" +:+ "util" +:+ "." +:+ "backend.py")
    = Ok "util_vul.py".
Proof.
  split.
  - apply (vul_file_name_of_stem "util" "py"); reflexivity.
  - apply (vul_file_name_of_stem "util" "backend.py"); reflexivity.
Defined.

(** X12: the name of a copy is computed for every path without an
    exception; it holds no slash, and the part before [_vul.py] holds no
    dot. *)
Theorem vul_file_name_flat (file_path : string) :
  exists stem,
    vul_file_name file_path = Ok (stem +:+ "_vul.py") /\
    none_of (Ascii.eqb "/") (stem +:+ "_vul.py") = true /\
    none_of (Ascii.eqb ".") stem = true.
Proof.
  unfold vul_file_name, index_last.
  destruct (split_last "/" file_path) as (base & Hl & _); [discriminate |].
  rewrite Hl. cbn [mbind result_bind].
  assert (Hb : none_of (Ascii.eqb "/") base = true).
  { pose proof (split_char_pieces "/" file_path) as H.
    rewrite Forall_forall in H. apply H. now apply last_Some_elem_of. }
  destruct (split_char_head "." (Ascii.eqb "/") base Hb) as (p & ps & E & Hp).
  pose proof (split_char_pieces "." base) as Hdot. rewrite E in Hdot.
  inversion Hdot as [|? ? Hpd _]; subst.
  exists p. rewrite E. cbn [index lookup list_lookup mbind result_bind].
  split; [reflexivity |]. split; [| exact Hpd].
  rewrite none_of_app, Hp. reflexivity.
Qed.

(** X13: the file list of the result is the list of the names that
    [git diff-tree --name-only] prints one per line, provided that the
    listing neither starts nor ends with white space of its own. *)
Theorem file_list_round_trip (names : list string) (stat diff : string) :
  names <> [] ->
  Forall (fun n => none_of (Ascii.eqb "010") n = true) names ->
  PyStr.strip (String.concat nl names) = String.concat nl names ->
  PyStr.split nl (PyStr.strip (String.concat nl names +:+ nl)) = names /\
  (exists r,
     analyze_commit_changes_counts (String.concat nl names +:+ nl) stat diff
       = Ok r /\ files_list r = names) /\
  (forall r,
     analyze_commit_changes (String.concat nl names +:+ nl) stat diff = Ok r ->
     files_list r = names).
Proof.
  intros Hne Hall Hstrip.
  assert (H : PyStr.split nl (PyStr.strip (String.concat nl names +:+ nl))
              = names).
  { change (String.concat nl names +:+ nl)
      with (String.concat nl names +:+ String "010" "").
    rewrite strip_app_space by reflexivity.
    rewrite Hstrip. now apply split_concat. }
  split; [exact H |]. split.
  - destruct (first_pass_counts_total (PyStr.split nl diff)) as [fs E].
    eexists. unfold analyze_commit_changes_counts. rewrite E.
    cbn [mbind result_bind]. split; [reflexivity |]. exact H.
  - intros r. unfold analyze_commit_changes.
    destruct (classify _); cbn [mbind result_bind]; [| discriminate].
    intros [= <-]. exact H.
Qed.

Lemma file_list_round_trip_witness :
  PyStr.split nl
    (PyStr.strip (String.concat nl ["a.py"; "docs/b c.md"] +:+ nl))
  = ["a.py"; "docs/b c.md"].
Proof.
  apply (file_list_round_trip ["a.py"; "docs/b c.md"] "" "").
  - discriminate.
  - repeat constructor.
  - reflexivity.
Defined.

(** X14: the deprecated analysis unpacks the commit fields exactly when
    the stripped output of [git show] holds three bars; a commit whose
    subject or author holds a bar makes the unpacking fail, and with
    fields free of bars the four fields are read as printed. *)
Theorem commit_fields_unpack
    (author_name author_email author_time commit_message : string) :
  none_of (Ascii.eqb "|") author_name = true ->
  none_of (Ascii.eqb "|") author_email = true ->
  none_of (Ascii.eqb "|") author_time = true ->
  none_of (Ascii.eqb "|") commit_message = true ->
  PyStr.strip (author_name +:+ "|" +:+ author_email +:+ "|" +:+ author_time
               +:+ "|" +:+ commit_message)
  = author_name +:+ "|" +:+ author_email +:+ "|" +:+ author_time
    +:+ "|" +:+ commit_message ->
  commit_fields (author_name +:+ "|" +:+ author_email +:+ "|" +:+ author_time
                 +:+ "|" +:+ commit_message)
  = Some (author_name, author_email, author_time, commit_message) /\
  (forall out, commit_fields out = None <->
     count_char "|" (PyStr.strip out) <> 3%nat).
Proof.
  intros Hn He Ht Hm Hstrip. split.
  - unfold commit_fields. rewrite Hstrip.
    rewrite (split_none_of_app "|" "" author_name) by exact Hn.
    rewrite (split_none_of_app "|" "" author_email) by exact He.
    rewrite (split_none_of_app "|" "" author_time) by exact Ht.
    now rewrite (split_none_of "|" "" commit_message) by exact Hm.
  - intros out. unfold commit_fields.
    pose proof (split_char_length "|" (PyStr.strip out)) as Hlen.
    destruct (PyStr.split "|" (PyStr.strip out))
      as [|a [|b [|c [|d [|e l]]]]]; simpl in Hlen;
      (split; [intros H; (discriminate H || lia)
              | intros H; (reflexivity || lia)]).
Qed.

Lemma commit_fields_unpack_witness :
  commit_fields "Ada|ada@example.org|1350000000|Fix the parser"
    = Some ("Ada", "ada@example.org", "1350000000", "Fix the parser").
Proof.
  apply (commit_fields_unpack "Ada" "ada@example.org" "1350000000"
           "Fix the parser"); reflexivity.
Defined.
